(** * DiabloTrades: connection manager, health gate and strategy loops

    A shallow embedding of [main.py]: the singleton [MT5ConnectionManager]
    with its throttled [connect], the [health_check] of the strategy base
    class, the three strategy loops ([TriangleArbitrageStrategy],
    [SMCStrategy], [BreakoutStrategy]) and the [StrategyManager] registry.

    Modelling conventions.
    - [time.time()] and every other float of the program (CPU and memory
      percentages, latencies, sleep durations) is a rational [Q]; the
      infinite latency [float('inf')] is a separate constructor.
    - Every call that leaves the program (the [mt5] terminal API, [psutil],
      the socket probe, the clock, the decision logic that the source leaves
      as a placeholder comment) is answered by an environment record that is
      passed in explicitly, and leaves an [event] in the trace.
    - Python exceptions are the [Raises] outcome of the [Py] monad;
      [try ... except Exception] is [try_except].
    - [with self._connection_lock] makes [connect] atomic, so [connect] is
      one state transition of the manager.
    - A strategy loop runs on a thread of its own. Its run is the list of
      its iterations; what the other threads do to it, a [stop()] from the
      controlling thread, is part of the environment of the iteration
      during which it happens, and the loop sees it at its next test of
      [self.active].
    - A configuration dictionary is held by value in the object that was
      built from it: no property below is about two objects sharing one
      dictionary. *)

From Stdlib Require Import QArith Lqa ZArith List String Bool Lia.
From Stdlib Require DecimalString DecimalPos DecimalZ.
From stdpp Require Import gmap strings.

Import ListNotations.
Local Open Scope string_scope.
Local Open Scope list_scope.

(** ** Python values and exceptions *)

(** The values that configuration dictionaries and return values hold. *)
#[warnings="-register-all"]
Inductive py_value : Type :=
| PyNone
| PyBool (b : bool)
| PyInt (z : Z)
| PyFloat (q : Q)
| PyStr (s : string)
| PyList (l : list py_value)
| PyTuple (l : list py_value).

(** An exception is identified by its class name. *)
Inductive exn : Type := Exception (class_name : string).

Inductive outcome (A : Type) : Type :=
| Returns (a : A)
| Raises (e : exn).
Arguments Returns {A} a.
Arguments Raises {A} e.

(** A float that may be [float('inf')]. *)
Inductive xfloat : Type :=
| Finite (q : Q)
| Inf.

(** Strict comparison of floats, [x < y]. *)
Definition Qlt_bool (x y : Q) : bool := negb (Qle_bool y x).

(** [x > y] where [x] may be infinite. *)
Definition xfloat_gt (x : xfloat) (y : Q) : bool :=
  match x with
  | Finite q => Qlt_bool y q
  | Inf => true
  end.

(** The number a value stands for in arithmetic and comparisons with a
    float; [None] where Python raises [TypeError]. *)
Definition as_number (v : py_value) : option Q :=
  match v with
  | PyInt z => Some (inject_Z z)
  | PyFloat q => Some q
  | PyBool b => Some (if b then 1%Q else 0%Q)
  | _ => None
  end.

(** [x is None]. *)
Definition is_None {A} (x : option A) : bool :=
  match x with
  | None => true
  | Some _ => false
  end.

(** ** Events *)

Inductive log_level : Type := DEBUG | INFO | WARNING | ERROR | CRITICAL.

(** What the program does to the outside world, in order. *)
Inductive event : Type :=
| Mt5Initialize
| Mt5Login
| Mt5LastError
| Mt5Shutdown
| Mt5CopyRatesFromPos (symbol : py_value) (timeframe : py_value)
                      (start_pos : Z) (count : py_value)
| Mt5SymbolInfoTick (symbol : py_value)
| GetSystemStatus
| GetNetworkLatency
| DecisionLogic
| ThreadStart (target : string)
| Sleep (seconds : Q)
| Log (level : log_level) (message : string).

(** ** The effect monad: state, trace and exceptions *)

Definition Py (S A : Type) : Type := S -> outcome A * S * list event.

Definition ret {S A} (a : A) : Py S A := fun s => (Returns a, s, []).

Definition bind {S A B} (m : Py S A) (k : A -> Py S B) : Py S B :=
  fun s =>
    match m s with
    | (Returns a, s1, ev1) =>
        let '(r, s2, ev2) := k a s1 in (r, s2, ev1 ++ ev2)
    | (Raises e, s1, ev1) => (Raises e, s1, ev1)
    end.

Definition get {S} : Py S S := fun s => (Returns s, s, []).
Definition modify {S} (f : S -> S) : Py S unit := fun s => (Returns tt, f s, []).
Definition emit {S} (ev : event) : Py S unit := fun s => (Returns tt, s, [ev]).
Definition raise {S A} (e : exn) : Py S A := fun s => (Raises e, s, []).

(** A call into a collaborator: the event, then the answer the environment
    gives. *)
Definition call {S A} (ev : event) (answer : outcome A) : Py S A :=
  fun s => (answer, s, [ev]).

(** [try: body except Exception: handler]. Mutations and events of the
    body up to the raise are kept. *)
Definition try_except {S A} (body : Py S A) (handler : exn -> Py S A) : Py S A :=
  fun s =>
    match body s with
    | (Raises e, s1, ev1) =>
        let '(r, s2, ev2) := handler e s1 in (r, s2, ev1 ++ ev2)
    | done => done
    end.

(** Run a computation on the first component of a pair of states. *)
Definition on_fst {S1 S2 A} (m : Py S1 A) : Py (S1 * S2) A :=
  fun s => let '(r, s1, evs) := m (fst s) in (r, (s1, snd s), evs).

(** Run a computation on the second component of a pair of states. *)
Definition on_snd {S1 S2 A} (m : Py S2 A) : Py (S1 * S2) A :=
  fun s => let '(r, s2, evs) := m (snd s) in (r, (fst s, s2), evs).

Declare Scope py_scope.
Delimit Scope py_scope with py.
Notation "x <- m ;; k" := (bind m (fun x => k))
  (at level 63, m at next level, right associativity) : py_scope.
Notation "m ;;; k" := (bind m (fun _ => k))
  (at level 63, right associativity) : py_scope.
Local Open Scope py_scope.

Definition logger {S} (level : log_level) (message : string) : Py S unit :=
  emit (Log level message).

(** [logger.exception] logs at level ERROR. *)
Definition logger_exception {S} (message : string) : Py S unit :=
  emit (Log ERROR message).

(** [time.sleep(seconds)] for a float literal. *)
Definition time_sleep {S} (seconds : Q) : Py S unit := emit (Sleep seconds).

(** [time.sleep(v)] for a value read from a dictionary: [TypeError] unless
    [v] is a number, [ValueError] when it is negative. *)
Definition time_sleep_value {S} (v : py_value) : Py S unit :=
  match as_number v with
  | None => raise (Exception "TypeError")
  | Some q => if Qlt_bool q 0 then raise (Exception "ValueError")
              else time_sleep q
  end.

(** The result, the final state and the trace of a run. *)
Definition result_of {A S} (r : outcome A * S * list event) : outcome A := fst (fst r).
Definition state_of {A S} (r : outcome A * S * list event) : S := snd (fst r).
Definition trace_of {A S} (r : outcome A * S * list event) : list event := snd r.

(** ** MT5ConnectionManager *)

Record MT5ConnectionManager : Type := {
  connected : bool;
  last_connection_attempt : Q;
  connection_interval : Q
}.

(** [MT5ConnectionManager.initialize]: the state of the fresh singleton. *)
Definition initialize : MT5ConnectionManager :=
  {| connected := false; last_connection_attempt := 0; connection_interval := 60 |}.

Definition set_connected (b : bool) (self : MT5ConnectionManager) : MT5ConnectionManager :=
  {| connected := b;
     last_connection_attempt := last_connection_attempt self;
     connection_interval := connection_interval self |}.

Definition set_last_connection_attempt (t : Q) (self : MT5ConnectionManager)
  : MT5ConnectionManager :=
  {| connected := connected self;
     last_connection_attempt := t;
     connection_interval := connection_interval self |}.

(** What the outside world answers during one call of [connect]. *)
Record connect_env : Type := {
  time_time : Q;                      (* time.time() *)
  mt5_initialize : outcome bool;      (* mt5.initialize() *)
  mt5_login : outcome bool;           (* mt5.login(account, password, server) *)
  mt5_last_error : outcome unit;      (* mt5.last_error() *)
  mt5_shutdown : outcome unit         (* mt5.shutdown() *)
}.

(** The body of the [try] block of [connect]. [Some b] is an early
    [return b]; [None] falls through to the final [return self.connected]. *)
Definition connect_attempt (w : connect_env) : Py MT5ConnectionManager (option bool) :=
  initialized <- call Mt5Initialize (mt5_initialize w) ;;
  logged_in <- (if initialized : bool then call Mt5Login (mt5_login w) else ret false) ;;
  if logged_in : bool then
    modify (set_connected true) ;;;
    logger INFO "MT5 connection established" ;;;
    ret (Some true)
  else
    (* Connection failed *)
    modify (set_connected false) ;;;
    call Mt5LastError (mt5_last_error w) ;;;
    logger ERROR "MT5 connection failed" ;;;
    call Mt5Shutdown (mt5_shutdown w) ;;;
    ret None.

(** [MT5ConnectionManager.connect]. *)
Definition connect (w : connect_env) : Py MT5ConnectionManager bool :=
  self <- get ;;
  let current_time := time_time w in
  (* Don't attempt too frequently *)
  if Qlt_bool (current_time - last_connection_attempt self) 5 then
    ret (connected self)
  else
    modify (set_last_connection_attempt current_time) ;;;
    early <- try_except (connect_attempt w)
               (fun _ =>
                  logger_exception "MT5 connection exception" ;;;
                  modify (set_connected false) ;;;
                  ret None) ;;
    match early with
    | Some b => ret b
    | None => self' <- get ;; ret (connected self')
    end.

(** [MT5ConnectionManager.ensure_connection]. *)
Definition ensure_connection (w : connect_env) : Py MT5ConnectionManager bool :=
  self <- get ;;
  if connected self then ret true else connect w.

(** [MT5ConnectionManager.reconnect]. *)
Definition reconnect (w : connect_env) : Py MT5ConnectionManager bool :=
  modify (set_connected false) ;;;
  connect w.

(** A real connection attempt is one that reaches [mt5.initialize()]. *)
Definition is_attempt (ev : event) : bool :=
  match ev with Mt5Initialize => true | _ => false end.

Definition attempted (evs : list event) : bool := existsb is_attempt evs.

Definition is_shutdown (ev : event) : bool :=
  match ev with Mt5Shutdown => true | _ => false end.

(** Successive calls of [connect] on the one shared manager; for each call
    the manager it found, its result and its trace. *)
Fixpoint connect_calls (ws : list connect_env) (self : MT5ConnectionManager)
  : list (MT5ConnectionManager * outcome bool * list event) :=
  match ws with
  | [] => []
  | w :: ws' =>
      let '(r, self', evs) := connect w self in
      (self, r, evs) :: connect_calls ws' self'
  end.

(** The number of calls that made a real attempt. *)
Definition attempt_count
  (calls : list (MT5ConnectionManager * outcome bool * list event)) : nat :=
  length (List.filter (fun c => attempted (snd c)) calls).

(** ** SystemMonitor *)

(** The fields of the status dictionary that the program reads. *)
Record SystemStatus : Type := {
  cpu : Q;
  memory_percent : Q;
  disk_percent : Q
}.

(** What the outside world answers during one [health_check]. *)
Record health_env : Type := {
  connection : connect_env;
  system_status : outcome SystemStatus;   (* the psutil samples; may raise *)
  network_latency : xfloat                (* milliseconds, or float('inf') *)
}.

(** [SystemMonitor.get_system_status]. *)
Definition get_system_status {S} (w : health_env) : Py S SystemStatus :=
  call GetSystemStatus (system_status w).

(** [SystemMonitor.get_network_latency]: its own [except Exception] turns
    every failure of the probe into [float('inf')], so it always returns. *)
Definition get_network_latency {S} (w : health_env) : Py S xfloat :=
  call GetNetworkLatency (Returns (network_latency w)).

(** ** Configuration dictionaries *)

(** [d.get(key, default)]. *)
Definition dict_get (d : gmap string py_value) (key : string) (dflt : py_value)
  : py_value :=
  default dflt (d !! key).

(** [d.update(new)]: the keys of [new] win, the other keys of [d] stay. *)
Definition dict_update (new d : gmap string py_value) : gmap string py_value :=
  new ∪ d.

(** ** TradingStrategy, the base class

    [self.mt5_manager] is the process-wide singleton in every object, so it
    is no field of the record: the methods that use it run on the one
    manager that the caller holds. *)

Record TradingStrategy : Type := {
  config : gmap string py_value;
  active : bool;
  last_execution : Q;
  name : string
}.

Definition set_active (b : bool) (self : TradingStrategy) : TradingStrategy :=
  {| config := config self; active := b;
     last_execution := last_execution self; name := name self |}.

Definition set_config (c : gmap string py_value) (self : TradingStrategy)
  : TradingStrategy :=
  {| config := c; active := active self;
     last_execution := last_execution self; name := name self |}.

(** [TradingStrategy.__init__]; the subclass sets [name] right after it. *)
Definition TradingStrategy_init (cfg : gmap string py_value) (nm : string)
  : TradingStrategy :=
  {| config := cfg; active := false; last_execution := 0; name := nm |}.

(** [TradingStrategy.start]. *)
Definition start : Py TradingStrategy unit :=
  modify (set_active true) ;;;
  self <- get ;;
  logger INFO ("Started " ++ name self ++ " strategy").

(** [TradingStrategy.stop]. *)
Definition stop : Py TradingStrategy unit :=
  modify (set_active false) ;;;
  self <- get ;;
  logger INFO ("Stopped " ++ name self ++ " strategy").

(** [TradingStrategy.update_config]. *)
Definition update_config (new_config : gmap string py_value) : Py TradingStrategy unit :=
  modify (fun self => set_config (dict_update new_config (config self)) self) ;;;
  self <- get ;;
  logger INFO ("Updated " ++ name self ++ " configuration").

(** [TradingStrategy.health_check]. It reads [self.name] and works on the
    shared connection manager; it returns a bare boolean. *)
Definition health_check (w : health_env) (self_name : string)
  : Py MT5ConnectionManager bool :=
  (* Check MT5 connection *)
  ok <- ensure_connection (connection w) ;;
  if negb ok then
    logger ERROR (self_name ++ " strategy aborted - MT5 not connected") ;;;
    ret false
  else
    (* Check system resources *)
    status <- get_system_status w ;;
    if Qlt_bool 90 (cpu status) then
      logger WARNING "High CPU usage" ;;;
      ret false
    else if Qlt_bool 90 (memory_percent status) then
      logger WARNING "High memory usage" ;;;
      ret false
    else
      (* Check network latency *)
      latency <- get_network_latency w ;;
      if xfloat_gt latency 100 then
        logger WARNING "High network latency" ;;;
        ret false
      else ret true.

(** The value a Python caller receives from [health_check]. *)
Definition health_check_value (w : health_env) (self_name : string)
  (mgr : MT5ConnectionManager) : outcome py_value :=
  match result_of (health_check w self_name mgr) with
  | Returns b => Returns (PyBool b)
  | Raises e => Raises e
  end.

(** A probe of the health gate is any of the calls [health_check] makes. *)
Definition is_health_probe (ev : event) : bool :=
  match ev with
  | Mt5Initialize | Mt5Login | Mt5LastError | Mt5Shutdown
  | GetSystemStatus | GetNetworkLatency => true
  | _ => false
  end.

Definition is_decision (ev : event) : bool :=
  match ev with DecisionLogic => true | _ => false end.

(** ** One iteration's environment *)

(** A pandas DataFrame, as far as the program looks into it. *)
Record DataFrame : Type := {
  df_columns : list string;
  df_rows : list (list py_value)
}.

(** [df.copy()]. *)
Definition copy (df : DataFrame) : DataFrame :=
  {| df_columns := df_columns df; df_rows := df_rows df |}.

(** What the outside world answers during one iteration of a strategy
    loop. A field is read only by the strategies whose loop makes the
    call. *)
Record iter_env : Type := {
  now : Q;                                   (* time.time() at the top of the iteration *)
  health : health_env;
  decision_logic : outcome unit;             (* the placeholder block of the loop *)
  now_after : Q;                             (* time.time() after trade execution *)
  fetch_time : Q;                            (* time.time() in get_cached_data *)
  mt5_copy_rates_from_pos : outcome py_value;
  pd_DataFrame : outcome DataFrame;          (* pd.DataFrame(rates) *)
  pd_to_datetime : outcome DataFrame;        (* the frame with its time column converted *)
  mt5_symbol_info_tick : outcome py_value;
  stop_requested : bool                      (* stop() is called during this iteration *)
}.

(** An answer of the environment that leaves no event: a library
    computation that may raise. *)
Definition answer {S A} (o : outcome A) : Py S A := fun s => (o, s, []).

(** The constants of the MetaTrader5 package that the source names. *)
Definition TIMEFRAME_M15 : py_value := PyInt 15.
Definition TIMEFRAME_H1 : py_value := PyInt 16385.

(** ** The loop shell shared by the strategy classes

    Every [execute] of the source is
    [while self.active: try: <body> except Exception: log; time.sleep(5)].
    A strategy class provides the body of the [try] block; [continue]
    ends the body. *)

Class Strategy (T : Type) : Type := {
  strategy_base : T -> TradingStrategy;
  strategy_with_base : TradingStrategy -> T -> T;
  try_body : iter_env -> Py (MT5ConnectionManager * T) unit;
  error_message : string
}.

Inductive loop_status : Type :=
| Exited                 (* the loop condition was false: [execute] returned *)
| StillRunning           (* the environment supplied no further iteration *)
| Crashed (e : exn).     (* an exception left [execute] *)

(** One executed iteration: the state it started from, the environment it
    ran in, and what it did. *)
Record iteration_record (T : Type) : Type := {
  seen : MT5ConnectionManager * T;
  world : iter_env;
  emitted : list event
}.
Arguments seen {T} _.
Arguments world {T} _.
Arguments emitted {T} _.

Section Loop.
Context {T : Type} `{Strategy T}.

(** One pass through the [try] statement of the loop. *)
Definition iteration (w : iter_env) : Py (MT5ConnectionManager * T) unit :=
  try_except (try_body w)
    (fun _ => logger_exception error_message ;;; time_sleep 5).

Definition is_active (st : MT5ConnectionManager * T) : bool :=
  active (strategy_base (snd st)).

(** The controlling thread calls [stop()] on the object while the
    iteration runs; the loop sees the flag at its next test. *)
Definition observe_stop (w : iter_env) (st : MT5ConnectionManager * T)
  : MT5ConnectionManager * T :=
  if stop_requested w then
    (fst st, strategy_with_base (state_of (stop (strategy_base (snd st)))) (snd st))
  else st.

(** [execute]: the [while self.active] loop, one environment record per
    iteration. *)
Fixpoint run_loop (ws : list iter_env) (st : MT5ConnectionManager * T)
  : loop_status * (MT5ConnectionManager * T) * list (iteration_record T) :=
  if is_active st then
    match ws with
    | [] => (StillRunning, st, [])
    | w :: ws' =>
        let '(r, st1, evs) := iteration w st in
        let this := {| seen := st; world := w; emitted := evs |} in
        match r with
        | Raises e => (Crashed e, st1, [this])
        | Returns _ =>
            let '(status, st', rest) := run_loop ws' (observe_stop w st1) in
            (status, st', this :: rest)
        end
    end
  else (Exited, st, []).
End Loop.

(** ** TriangleArbitrageStrategy *)

Module TriangleArbitrageStrategy.

Record t : Type := {
  base : TradingStrategy;
  symbol_triplet : py_value;
  last_trade_time : Q;
  cooldown : py_value
}.

(** [__init__]. *)
Definition init (cfg : gmap string py_value) : t :=
  {| base := TradingStrategy_init cfg "Triangle Arbitrage";
     symbol_triplet :=
       dict_get cfg "symbol_triplet"
         (PyList [PyStr "EURUSD"; PyStr "USDJPY"; PyStr "EURJPY"]);
     last_trade_time := 0;
     cooldown := dict_get cfg "cooldown" (PyInt 10) |}.

Definition with_base (b : TradingStrategy) (self : t) : t :=
  {| base := b; symbol_triplet := symbol_triplet self;
     last_trade_time := last_trade_time self; cooldown := cooldown self |}.

Definition set_last_trade_time (q : Q) (self : t) : t :=
  {| base := base self; symbol_triplet := symbol_triplet self;
     last_trade_time := q; cooldown := cooldown self |}.

(** [current_time - self.last_trade_time < self.cooldown]. *)
Definition in_cooldown {S} (current_time : Q) (self : t) : Py S bool :=
  match as_number (cooldown self) with
  | Some c => ret (Qlt_bool (current_time - last_trade_time self) c)
  | None => raise (Exception "TypeError")
  end.

(** The [try] block of [execute]. *)
Definition body (w : iter_env) : Py (MT5ConnectionManager * t) unit :=
  st <- get ;;
  let self := snd st in
  let current_time := now w in
  (* Respect cooldown period *)
  wait <- in_cooldown current_time self ;;
  if wait : bool then
    time_sleep (1 # 10)
  else
    (* Perform health check *)
    healthy <- on_fst (health_check (health w) (name (base self))) ;;
    if negb healthy then
      time_sleep 5
    else
      (* ----- ARBITRAGE LOGIC GOES HERE ----- *)
      call DecisionLogic (decision_logic w) ;;;
      (* After trade execution *)
      on_snd (modify (set_last_trade_time (now_after w))).

#[global] Instance strategy : Strategy t := {|
  strategy_base := base;
  strategy_with_base := with_base;
  try_body := body;
  error_message := "Arbitrage strategy error"
|}.

Definition execute := run_loop (T := t).

End TriangleArbitrageStrategy.

(** ** SMCStrategy *)

Module SMCStrategy.

Record t : Type := {
  base : TradingStrategy;
  symbol : py_value;
  timeframe : py_value;
  data_cache : option DataFrame;      (* None is Python's None *)
  last_update : Q
}.

(** [__init__]. *)
Definition init (cfg : gmap string py_value) : t :=
  {| base := TradingStrategy_init cfg "Smart Money Concept";
     symbol := dict_get cfg "symbol" (PyStr "EURUSD");
     timeframe := dict_get cfg "timeframe" TIMEFRAME_M15;
     data_cache := None;
     last_update := 0 |}.

Definition with_base (b : TradingStrategy) (self : t) : t :=
  {| base := b; symbol := symbol self; timeframe := timeframe self;
     data_cache := data_cache self; last_update := last_update self |}.

Definition set_data_cache (c : option DataFrame) (self : t) : t :=
  {| base := base self; symbol := symbol self; timeframe := timeframe self;
     data_cache := c; last_update := last_update self |}.

Definition set_last_update (q : Q) (self : t) : t :=
  {| base := base self; symbol := symbol self; timeframe := timeframe self;
     data_cache := data_cache self; last_update := q |}.

(** The call [mt5.copy_rates_from_pos(self.symbol, self.timeframe, 0,
    self.config.get('lookback_bars', 100))], with the arguments it is
    made with. *)
Definition copy_rates_event (self : t) : event :=
  Mt5CopyRatesFromPos (symbol self) (timeframe self) 0
    (dict_get (config (base self)) "lookback_bars" (PyInt 100)).

(** The [try] block of [get_cached_data]. *)
Definition update_cache (w : iter_env) (current_time : Q) : Py t unit :=
  self <- get ;;
  call (copy_rates_event self) (mt5_copy_rates_from_pos w) ;;;
  df <- answer (pd_DataFrame w) ;;
  modify (set_data_cache (Some df)) ;;;
  df' <- answer (pd_to_datetime w) ;;
  modify (set_data_cache (Some df')) ;;;
  modify (set_last_update current_time) ;;;
  logger DEBUG "Updated market data cache".

(** [get_cached_data]. The result [None] would be Python's [None]. *)
Definition get_cached_data (w : iter_env) (force_update : bool)
  : Py t (option DataFrame) :=
  self <- get ;;
  let current_time := fetch_time w in
  let cache_duration := 30%Q in  (* Cache for 30 seconds *)
  (if force_update
      || is_None (data_cache self)
      || Qlt_bool cache_duration (current_time - last_update self)
   then
     try_except (update_cache w current_time)
       (fun _ => logger ERROR "Failed to update market data")
   else ret tt) ;;;
  self' <- get ;;
  match data_cache self' with
  | None => raise (Exception "AttributeError")   (* None.copy() *)
  | Some df => ret (Some (copy df))
  end.

(** The [try] block of [execute]. *)
Definition body (w : iter_env) : Py (MT5ConnectionManager * t) unit :=
  st <- get ;;
  let self := snd st in
  (* Perform health check *)
  healthy <- on_fst (health_check (health w) (name (base self))) ;;
  if negb healthy then
    time_sleep 5
  else
    (* Use cached data *)
    df <- on_snd (get_cached_data w false) ;;
    match df with
    | None => time_sleep 5
    | Some _ =>
        (* ----- SMC LOGIC GOES HERE ----- *)
        call DecisionLogic (decision_logic w) ;;;
        st' <- get ;;
        time_sleep_value
          (dict_get (config (base (snd st'))) "check_interval" (PyInt 60))
    end.

#[global] Instance strategy : Strategy t := {|
  strategy_base := base;
  strategy_with_base := with_base;
  try_body := body;
  error_message := "SMC strategy error"
|}.

Definition execute := run_loop (T := t).

End SMCStrategy.

(** ** BreakoutStrategy *)

Module BreakoutStrategy.

Record t : Type := {
  base : TradingStrategy;
  symbol : py_value;
  timeframe : py_value;
  previous_high : xfloat;
  previous_low : xfloat
}.

(** [__init__]. *)
Definition init (cfg : gmap string py_value) : t :=
  {| base := TradingStrategy_init cfg "Breakout";
     symbol := dict_get cfg "symbol" (PyStr "EURUSD");
     timeframe := dict_get cfg "timeframe" TIMEFRAME_H1;
     previous_high := Finite 0;
     previous_low := Inf |}.

Definition with_base (b : TradingStrategy) (self : t) : t :=
  {| base := b; symbol := symbol self; timeframe := timeframe self;
     previous_high := previous_high self; previous_low := previous_low self |}.

(** The [try] block of [execute]. *)
Definition body (w : iter_env) : Py (MT5ConnectionManager * t) unit :=
  st <- get ;;
  let self := snd st in
  (* Perform health check *)
  healthy <- on_fst (health_check (health w) (name (base self))) ;;
  if negb healthy then
    time_sleep 5
  else
    (* Get real-time price *)
    tick <- call (Mt5SymbolInfoTick (symbol self)) (mt5_symbol_info_tick w) ;;
    match tick with
    | PyNone => time_sleep 1
    | _ =>
        (* ----- BREAKOUT LOGIC GOES HERE ----- *)
        call DecisionLogic (decision_logic w) ;;;
        st' <- get ;;
        time_sleep_value
          (dict_get (config (base (snd st'))) "check_interval" (PyInt 5))
    end.

#[global] Instance strategy : Strategy t := {|
  strategy_base := base;
  strategy_with_base := with_base;
  try_body := body;
  error_message := "Breakout strategy error"
|}.

Definition execute := run_loop (T := t).

End BreakoutStrategy.

(** ** StrategyManager *)

(** An instance of one of the three strategy classes. *)
Inductive strategy : Type :=
| Arbitrage (s : TriangleArbitrageStrategy.t)
| SMC (s : SMCStrategy.t)
| Breakout (s : BreakoutStrategy.t).

Definition base_of (s : strategy) : TradingStrategy :=
  match s with
  | Arbitrage a => TriangleArbitrageStrategy.base a
  | SMC a => SMCStrategy.base a
  | Breakout a => BreakoutStrategy.base a
  end.

Definition with_base_of (b : TradingStrategy) (s : strategy) : strategy :=
  match s with
  | Arbitrage a => Arbitrage (TriangleArbitrageStrategy.with_base b a)
  | SMC a => SMC (SMCStrategy.with_base b a)
  | Breakout a => Breakout (BreakoutStrategy.with_base b a)
  end.

(** [StrategyManager.strategies]: the class registered under each key. *)
Definition strategies : gmap string (gmap string py_value -> strategy) :=
  <["arbitrage" := fun cfg => Arbitrage (TriangleArbitrageStrategy.init cfg)]>
  (<["smc" := fun cfg => SMC (SMCStrategy.init cfg)]>
  (<["breakout" := fun cfg => Breakout (BreakoutStrategy.init cfg)]> ∅)).

Record StrategyManager : Type := {
  (* config["strategies"]: the stored configuration of each identifier *)
  manager_config : gmap string (gmap string py_value);
  active_strategies : gmap string strategy
}.

(** [StrategyManager.__init__], given what [load_config] read. *)
Definition StrategyManager_init (loaded : gmap string (gmap string py_value))
  : StrategyManager :=
  {| manager_config := loaded; active_strategies := ∅ |}.

Definition set_active_strategies (a : gmap string strategy) (m : StrategyManager)
  : StrategyManager :=
  {| manager_config := manager_config m; active_strategies := a |}.

(** Modelled from the spec: the test that the missing
    [StrategyManager.start_strategy] makes first, whether a runtime is
    registered under [id] and Running. *)
Definition already_running (id : string) (m : StrategyManager) : bool :=
  match active_strategies m !! id with
  | Some s => active (base_of s)
  | None => false
  end.

(** Modelled from the spec: the creation of a runtime, the part of the
    missing [StrategyManager.start_strategy] that does the work. The class
    registered under the identifier is instantiated with the configuration,
    started with [TradingStrategy.start], entered in the registry, and its
    [execute] loop is spawned on a thread of its own; an identifier with no
    class does nothing. *)
Definition launch (id : string) (cfg : gmap string py_value)
  : Py StrategyManager unit :=
  match strategies !! id with
  | None => ret tt
  | Some cls =>
      fun self =>
        let s := cls cfg in
        let '(_, b, evs) := start (base_of s) in
        (Returns tt,
         set_active_strategies
           (<[id := with_base_of b s]> (active_strategies self)) self,
         evs ++ [ThreadStart id])
  end.

(** Modelled from the spec: [StrategyManager.start_strategy] is missing from
    main.py (the class ends after [save_config]; only its sibling
    [stop_strategy] is called, from the clean-up of [main]). Following the
    spec's Orchestrator contract: starting an identifier whose runtime is
    already Running does nothing; otherwise the runtime is created. *)
Definition start_strategy (id : string) (cfg : gmap string py_value)
  : Py StrategyManager unit :=
  self <- get ;;
  if already_running id self then ret tt else launch id cfg.

(** Modelled from the spec: [StrategyManager.stop_strategy] is called by the
    clean-up of [main] but missing from main.py. Following the spec's
    Orchestrator contract: the runtime is told to stop with
    [TradingStrategy.stop] and removed from the registry, without waiting
    for its loop to exit. *)
Definition stop_strategy (id : string) : Py StrategyManager unit :=
  self <- get ;;
  match active_strategies self !! id with
  | None => ret tt
  | Some s =>
      let '(_, _, evs) := stop (base_of s) in
      (fun m => (Returns tt, m, evs)) ;;;
      modify (set_active_strategies (delete id (active_strategies self)))
  end.

Definition is_thread_start (ev : event) : bool :=
  match ev with ThreadStart _ => true | _ => false end.

(** ** The process: one shared connection manager, many strategy objects *)

Record Process : Type := {
  mt5_instance : MT5ConnectionManager;      (* MT5ConnectionManager._instance *)
  runtimes : gmap string strategy           (* the object each loop runs on *)
}.

(** One pass through the loop of a strategy object, whatever its class. *)
Definition iterate (w : iter_env) (st : MT5ConnectionManager * strategy)
  : outcome unit * (MT5ConnectionManager * strategy) * list event :=
  match snd st with
  | Arbitrage a =>
      let '(r, (m, a'), evs) := iteration w (fst st, a) in (r, (m, Arbitrage a'), evs)
  | SMC a =>
      let '(r, (m, a'), evs) := iteration w (fst st, a) in (r, (m, SMC a'), evs)
  | Breakout a =>
      let '(r, (m, a'), evs) := iteration w (fst st, a) in (r, (m, Breakout a'), evs)
  end.

(** The loop of the runtime [id] performs one iteration inside the
    process. *)
Definition step (id : string) (w : iter_env) (p : Process)
  : Process * list event :=
  match runtimes p !! id with
  | None => (p, [])
  | Some s =>
      if active (base_of s) then
        let '(_, (m, s'), evs) := iterate w (mt5_instance p, s) in
        ({| mt5_instance := m; runtimes := <[id := s']> (runtimes p) |}, evs)
      else (p, [])
  end.

(** ** Sequences of [connect] calls *)

(** Consecutive calls are less than the 5 seconds of the throttle apart
    (and the clock does not run backwards). *)
Fixpoint closely_spaced (ws : list connect_env) : bool :=
  match ws with
  | w1 :: ((w2 :: _) as rest) =>
      Qle_bool (time_time w1) (time_time w2)
      && Qlt_bool (time_time w2 - time_time w1) 5
      && closely_spaced rest
  | _ => true
  end.

(** Every call is less than 5 seconds after every earlier call: the whole
    sequence fits in a window shorter than the throttle. *)
Fixpoint within_window (ws : list connect_env) : bool :=
  match ws with
  | [] => true
  | w :: rest =>
      forallb (fun w' => Qlt_bool (time_time w' - time_time w) 5) rest
      && within_window rest
  end.

(** A call that the throttle answers: no event, the cached flag returned,
    the manager untouched. *)
Definition answered_from_cache
  (c : MT5ConnectionManager * outcome bool * list event) : Prop :=
  snd (fst c) = Returns (connected (fst (fst c))) /\ snd c = [].

(** ** Sample environments *)

(** A terminal that accepts the connection at time [t]. *)
Definition terminal_up (t : Q) : connect_env :=
  {| time_time := t;
     mt5_initialize := Returns true;
     mt5_login := Returns true;
     mt5_last_error := Returns tt;
     mt5_shutdown := Returns tt |}.

(** A terminal that initializes and then raises from [mt5.login]. *)
Definition login_raises (t : Q) : connect_env :=
  {| time_time := t;
     mt5_initialize := Returns true;
     mt5_login := Raises (Exception "RuntimeError");
     mt5_last_error := Returns tt;
     mt5_shutdown := Returns tt |}.

(** A manager that connected at time 100. *)
Definition connected_at_100 : MT5ConnectionManager :=
  {| connected := true; last_connection_attempt := 100; connection_interval := 60 |}.

(** Whether the terminal accepts the connection: both [mt5.initialize()]
    and [mt5.login(...)] return true. *)
Definition terminal_accepts (w : connect_env) : bool :=
  match mt5_initialize w, mt5_login w with
  | Returns true, Returns true => true
  | _, _ => false
  end.

(** The underlying attempt fails by a false return (no exception): either
    [mt5.initialize()] returns false, or it returns true and
    [mt5.login(...)] returns false. *)
Definition fails_by_return (w : connect_env) : bool :=
  match mt5_initialize w, mt5_login w with
  | Returns false, _ => true
  | Returns true, Returns false => true
  | _, _ => false
  end.

(** ** The health-gate scenario *)

(** Connection up, cpu 95, memory 50, latency 10 ms. *)
Definition cpu_95_health : health_env :=
  {| connection := terminal_up 200;
     system_status :=
       Returns {| cpu := 95; memory_percent := 50; disk_percent := 10 |};
     network_latency := Finite 10 |}.

(** ** Updating a configuration *)

(** [update_config] called on an instance of a strategy class: the method
    is inherited, so it rebinds nothing but [self.config]. *)
Definition update_config_on {T} `{Strategy T} (new_config : gmap string py_value)
  (self : T) : T :=
  strategy_with_base (state_of (update_config new_config (strategy_base self))) self.

(** ** Market-data fetches *)

Definition returns_None {A} (r : outcome (option A)) : bool :=
  match r with
  | Returns None => true
  | _ => false
  end.

(** The fetch fails before [self.data_cache] is assigned:
    [mt5.copy_rates_from_pos] or [pd.DataFrame] raises. *)
Definition fetch_fails (w : iter_env) : bool :=
  match mt5_copy_rates_from_pos w, pd_DataFrame w with
  | Raises _, _ => true
  | Returns _, Raises _ => true
  | Returns _, Returns _ => false
  end.

(** A healthy environment at time [t]: the connection is accepted, the
    machine is idle, the network is fast. *)
Definition healthy (t : Q) : health_env :=
  {| connection := terminal_up t;
     system_status :=
       Returns {| cpu := 20; memory_percent := 50; disk_percent := 10 |};
     network_latency := Finite 10 |}.

Definition one_bar : DataFrame :=
  {| df_columns := ["time"; "close"];
     df_rows := [[PyInt 1700000000; PyFloat (11 # 10)]] |}.

(** An iteration at time [t] in which every collaborator answers. *)
Definition calm (t : Q) : iter_env :=
  {| now := t;
     health := healthy t;
     decision_logic := Returns tt;
     now_after := t;
     fetch_time := t;
     mt5_copy_rates_from_pos := Returns (PyList []);
     pd_DataFrame := Returns one_bar;
     pd_to_datetime := Returns one_bar;
     mt5_symbol_info_tick := Returns (PyFloat 1);
     stop_requested := false |}.

(** An iteration at time [t] in which the terminal hands out no rates:
    [mt5.copy_rates_from_pos] raises. *)
Definition no_rates (t : Q) : iter_env :=
  {| now := t;
     health := healthy t;
     decision_logic := Returns tt;
     now_after := t;
     fetch_time := t;
     mt5_copy_rates_from_pos := Raises (Exception "RuntimeError");
     pd_DataFrame := Returns one_bar;
     pd_to_datetime := Returns one_bar;
     mt5_symbol_info_tick := Returns (PyFloat 1);
     stop_requested := false |}.

(** An iteration at time [t] in which the decision logic raises. *)
Definition faulty (t : Q) : iter_env :=
  {| now := t;
     health := healthy t;
     decision_logic := Raises (Exception "ValueError");
     now_after := t;
     fetch_time := t;
     mt5_copy_rates_from_pos := Returns (PyList []);
     pd_DataFrame := Returns one_bar;
     pd_to_datetime := Returns one_bar;
     mt5_symbol_info_tick := Returns (PyFloat 1);
     stop_requested := false |}.

(** An SMC strategy configured for EURUSD, and the update that asks for
    GBPUSD on the hourly timeframe with 500 bars. *)
Definition smc_eurusd : SMCStrategy.t :=
  SMCStrategy.init {[ "symbol" := PyStr "EURUSD" ]}.

Definition to_gbpusd : gmap string py_value :=
  <[ "symbol" := PyStr "GBPUSD" ]>
  (<[ "timeframe" := TIMEFRAME_H1 ]>
  {[ "lookback_bars" := PyInt 500 ]}).

(** ** Runs of a strategy loop *)

(** What the three strategy classes have in common: the body of the loop
    never rebinds the attributes of the base class, and the base of an
    object is what was stored in it. *)
Class StrategyLaws (T : Type) `{Strategy T} : Prop := {
  try_body_keeps_base :
    forall (w : iter_env) (st : MT5ConnectionManager * T),
      strategy_base (snd (state_of (try_body w st))) = strategy_base (snd st);
  base_with_base :
    forall (b : TradingStrategy) (s : T), strategy_base (strategy_with_base b s) = b
}.

(** The object after [start()] has been called on it. *)
Definition started {T} `{Strategy T} (self : T) : T :=
  strategy_with_base (state_of (start (strategy_base self))) self.

Definition trace_of_run {T}
  (r : loop_status * (MT5ConnectionManager * T) * list (iteration_record T))
  : list (iteration_record T) := snd r.

Definition status_of_run {T}
  (r : loop_status * (MT5ConnectionManager * T) * list (iteration_record T))
  : loop_status := fst (fst r).

Definition state_of_run {T}
  (r : loop_status * (MT5ConnectionManager * T) * list (iteration_record T))
  : MT5ConnectionManager * T := snd (fst r).

Definition is_crashed (status : loop_status) : bool :=
  match status with Crashed _ => true | _ => false end.

Definition is_exited (status : loop_status) : bool :=
  match status with Exited => true | _ => false end.

(** No iteration of the run sees a [stop()]. *)
Definition never_stopped (ws : list iter_env) : bool :=
  forallb (fun w => negb (stop_requested w)) ws.

(** The iteration did what its body did and, if the body raised, logged
    the error and slept 5 seconds after it. *)
Definition fault_handled {T} `{Strategy T} (it : iteration_record T) : Prop :=
  match try_body (world it) (seen it) with
  | (Raises _, _, evs) => emitted it = evs ++ [Log ERROR error_message; Sleep 5]
  | (Returns _, _, evs) => emitted it = evs
  end.

Definition decides (evs : list event) : bool := existsb is_decision evs.

Definition probes (evs : list event) : bool := existsb is_health_probe evs.

(** The times at which the iterations that invoked the decision logic
    started. *)
Definition decision_times {T} (trace : list (iteration_record T)) : list Q :=
  map (fun it => now (world it))
      (List.filter (fun it => decides (emitted it)) trace).

(** Consecutive times are at least [c] apart. *)
Fixpoint spaced_by (c : Q) (ts : list Q) : bool :=
  match ts with
  | t1 :: ((t2 :: _) as rest) => Qle_bool c (t2 - t1) && spaced_by c rest
  | _ => true
  end.

(** The cooldown a configuration asks for. *)
Definition cooldown_seconds (b : TradingStrategy) : py_value :=
  dict_get (config b) "cooldown" (PyInt 10).

(** The cooldown gate of the arbitrage loop, for one iteration: inside the
    cooldown the iteration is the 0.1 s sleep and nothing else; otherwise
    the cooldown has elapsed since [last_trade_time]; with a cooldown that
    is no number the decision logic is not reached. *)
Definition cooldown_gate (it : iteration_record TriangleArbitrageStrategy.t) : Prop :=
  let self := snd (seen it) in
  let elapsed := (now (world it) - TriangleArbitrageStrategy.last_trade_time self)%Q in
  match as_number (TriangleArbitrageStrategy.cooldown self) with
  | Some c =>
      if Qlt_bool elapsed c then emitted it = [Sleep (1 # 10)]
      else (c <= elapsed)%Q
  | None => decides (emitted it) = false
  end.

Definition is_returns {A} (o : outcome A) : bool :=
  match o with Returns _ => true | Raises _ => false end.

(** The iteration invoked the decision logic and the decision logic
    returned. *)
Definition completed {T} (it : iteration_record T) : bool :=
  decides (emitted it) && is_returns (decision_logic (world it)).

(** The clock readings of a run do not go backwards: within an iteration
    the reading after the trade is not before the one at the top, and
    every later iteration starts no earlier than that. *)
Fixpoint clock_monotone (ws : list iter_env) : bool :=
  match ws with
  | [] => true
  | w :: rest =>
      Qle_bool (now w) (now_after w)
      && forallb (fun w' => Qle_bool (now_after w) (now w')) rest
      && clock_monotone rest
  end.

(** When the earlier iteration completed a decision and the later one
    invokes the decision logic, the later one starts at least the cooldown
    after the earlier one recorded its trade. *)
Definition cooldown_between
  (earlier later : iteration_record TriangleArbitrageStrategy.t) : Prop :=
  completed earlier = true ->
  decides (emitted later) = true ->
  exists c,
    as_number (TriangleArbitrageStrategy.cooldown (snd (seen later))) = Some c
    /\ (c <= now (world later) - now_after (world earlier))%Q.

(** A started SMC strategy with a cooldown of 10 seconds in its
    configuration and no pause between checks. *)
Definition smc_fast : SMCStrategy.t :=
  started (SMCStrategy.init
             (<[ "cooldown" := PyInt 10 ]> {[ "check_interval" := PyInt 0 ]})).

(** A started arbitrage strategy with the default cooldown. *)
Definition arbitrage_default : TriangleArbitrageStrategy.t :=
  started (TriangleArbitrageStrategy.init ∅).

(** ** Registries and processes *)

(** A process in which an arbitrage and an SMC strategy are running. *)
Definition two_runtimes : Process :=
  {| mt5_instance := connected_at_100;
     runtimes :=
       <[ "arbitrage" := Arbitrage arbitrage_default ]>
       {[ "smc" := SMC smc_fast ]} |}.

(** A manager on which the arbitrage strategy has been started. *)
Definition arbitrage_started : StrategyManager :=
  state_of (start_strategy "arbitrage" ∅ (StrategyManager_init ∅)).

(** [start_strategy id cfg] called once for each configuration of the
    list, one call after the other. *)
Fixpoint start_repeatedly (id : string) (cfgs : list (gmap string py_value))
  (m : StrategyManager) : StrategyManager * list event :=
  match cfgs with
  | [] => (m, [])
  | cfg :: rest =>
      let '(_, m1, evs) := start_strategy id cfg m in
      let '(m2, evs') := start_repeatedly id rest m1 in
      (m2, evs ++ evs')
  end.

(** The number of loops spawned in a trace. *)
Definition spawned (evs : list event) : nat :=
  length (List.filter is_thread_start evs).

(** ** Frame conditions of computations *)

(** The computation leaves the observation [f] of the state as it was,
    however it ends. *)
Definition preserves {S A X} (f : S -> X) (m : Py S A) : Prop :=
  forall s, f (state_of (m s)) = f s.

(** The computation changes the observation [f] of the state, if at all,
    by applying [g] to it once. *)
Definition changes_only_by {S A X} (f : S -> X) (g : X -> X) (m : Py S A) : Prop :=
  forall s, f (state_of (m s)) = f s \/ f (state_of (m s)) = g (f s).

(** The manager after [ensure_connection] in the environment [cw]. *)
Definition after_ensure_connection (cw : connect_env) (mgr : MT5ConnectionManager)
  : MT5ConnectionManager :=
  state_of (ensure_connection cw mgr).

(** Every event of the computation satisfies [P], however it ends. *)
Definition emits_only {S A} (P : event -> bool) (m : Py S A) : Prop :=
  forall s, forallb P (trace_of (m s)) = true.

Definition not_decision (ev : event) : bool := negb (is_decision ev).

(** ** Further observations on the connection manager *)

(** The times of the calls, among successive calls of [connect], that made
    a real attempt. *)
Fixpoint attempt_times (ws : list connect_env) (self : MT5ConnectionManager) : list Q :=
  match ws with
  | [] => []
  | w :: ws' =>
      let '(_, self', evs) := connect w self in
      (if attempted evs then [time_time w] else []) ++ attempt_times ws' self'
  end.

Definition set_connection_interval (q : Q) (self : MT5ConnectionManager)
  : MT5ConnectionManager :=
  {| connected := connected self;
     last_connection_attempt := last_connection_attempt self;
     connection_interval := q |}.

(** A terminal that refuses the login at time [t]. *)
Definition login_refused (t : Q) : connect_env :=
  {| time_time := t;
     mt5_initialize := Returns true;
     mt5_login := Returns false;
     mt5_last_error := Returns tt;
     mt5_shutdown := Returns tt |}.

(** The loops of the runtimes named in the schedule perform one iteration
    each, in the order of the schedule. *)
Fixpoint run_schedule (schedule : list (string * iter_env)) (p : Process) : Process :=
  match schedule with
  | [] => p
  | (id, w) :: rest => run_schedule rest (fst (step id w p))
  end.

(** ** The latency probe *)

(** What the outside world answers during one
    [SystemMonitor.get_network_latency]. *)
Record probe_env : Type := {
  probe_start : Q;                       (* time.time() before the connection *)
  socket_create_connection : outcome unit;  (* socket.create_connection((host, 80), timeout=1) *)
  probe_end : Q                          (* time.time() after it *)
}.

(** The body of [SystemMonitor.get_network_latency]: the duration of the
    connection in milliseconds, [float('inf')] when it raises. This is the
    value that [network_latency] of a [health_env] stands for. *)
Definition measure_network_latency (p : probe_env) : xfloat :=
  match socket_create_connection p with
  | Returns _ => Finite ((probe_end p - probe_start p) * 1000)
  | Raises _ => Inf
  end.

Definition is_resource_probe (ev : event) : bool :=
  match ev with
  | GetSystemStatus | GetNetworkLatency => true
  | _ => false
  end.

(** A terminal that cannot be initialized at time [t]. *)
Definition terminal_down (t : Q) : connect_env :=
  {| time_time := t;
     mt5_initialize := Returns false;
     mt5_login := Returns true;
     mt5_last_error := Returns tt;
     mt5_shutdown := Returns tt |}.

(** A probe that took 150 ms. *)
Definition slow_probe : probe_env :=
  {| probe_start := 1000;
     socket_create_connection := Returns tt;
     probe_end := 1000 + (15 # 100) |}.

(** ** Further sample objects *)

(** A started arbitrage strategy whose configuration gives the cooldown as
    text, as a hand-edited JSON file may. *)
Definition arbitrage_text_cooldown : TriangleArbitrageStrategy.t :=
  started (TriangleArbitrageStrategy.init {[ "cooldown" := PyStr "10" ]}).

(** An iteration at time [t] during which [stop()] is called. *)
Definition stopping (t : Q) : iter_env :=
  {| now := t;
     health := healthy t;
     decision_logic := Returns tt;
     now_after := t;
     fetch_time := t;
     mt5_copy_rates_from_pos := Returns (PyList []);
     pd_DataFrame := Returns one_bar;
     pd_to_datetime := Returns one_bar;
     mt5_symbol_info_tick := Returns (PyFloat 1);
     stop_requested := true |}.

(** ** Sequences of cache reads *)

Definition is_copy_rates (ev : event) : bool :=
  match ev with Mt5CopyRatesFromPos _ _ _ _ => true | _ => false end.

(** The call went to the terminal for rates. *)
Definition fetched (evs : list event) : bool := existsb is_copy_rates evs.

Definition is_debug_log (ev : event) : bool :=
  match ev with Log DEBUG _ => true | _ => false end.

(** The call refreshed the cache: it logged "Updated market data cache",
    the only DEBUG message of [get_cached_data]. *)
Definition refreshed (evs : list event) : bool := existsb is_debug_log evs.

(** Successive calls [get_cached_data()] on one SMC strategy; for each
    call its clock reading and its trace. *)
Fixpoint get_cached_data_calls (ws : list iter_env) (self : SMCStrategy.t)
  : list (Q * list event) :=
  match ws with
  | [] => []
  | w :: ws' =>
      let '(_, self', evs) := SMCStrategy.get_cached_data w false self in
      (fetch_time w, evs) :: get_cached_data_calls ws' self'
  end.

(** The later call fetches more than 30 seconds after the earlier call
    refreshed the cache. *)
Definition cache_window (earlier later : Q * list event) : Prop :=
  refreshed (snd earlier) = true ->
  fetched (snd later) = true ->
  (30 < fst later - fst earlier)%Q.

(** An SMC strategy whose cache was filled at time 1000. *)
Definition smc_cached : SMCStrategy.t :=
  state_of (SMCStrategy.get_cached_data (calm 1000) false smc_eurusd).

Definition raw_bar : DataFrame :=
  {| df_columns := ["close"]; df_rows := [[PyFloat (11 # 10)]] |}.

(** An iteration at time [t] in which the frame is built but the
    conversion of its time column raises. *)
Definition no_time_column (t : Q) : iter_env :=
  {| now := t;
     health := healthy t;
     decision_logic := Returns tt;
     now_after := t;
     fetch_time := t;
     mt5_copy_rates_from_pos := Returns PyNone;
     pd_DataFrame := Returns raw_bar;
     pd_to_datetime := Raises (Exception "KeyError");
     mt5_symbol_info_tick := Returns (PyFloat 1);
     stop_requested := false |}.

(** ** Authorization *)

(** [str(n)] for an integer: its decimal digits, with a minus sign when it
    is negative. *)
Definition str (n : Z) : string :=
  DecimalString.NilZero.string_of_int (Z.to_int n).

(** [s == v] for a string [s]: only an equal string is equal to it. *)
Definition str_eq (s : string) (v : py_value) : bool :=
  match v with
  | PyStr s' => String.eqb s s'
  | _ => false
  end.

(** [is_authorized]. [AUTHORIZED_USERS] is the list that [json.loads]
    built from the environment variable. *)
Definition is_authorized (AUTHORIZED_USERS : list py_value) (user_id : Z) : bool :=
  existsb (str_eq (str user_id)) AUTHORIZED_USERS.

Definition is_PyStr (v : py_value) : bool :=
  match v with PyStr _ => true | _ => false end.

(** ** The chat and the objects a handler is called with *)

(** The texts the bot sends, by what they say. *)
Inductive reply : Type :=
| UnauthorizedAccess            (* "Unauthorized access. Your user ID has been logged." *)
| Welcome                       (* "Welcome to the MT5 Trading Bot! ..." *)
| ConnectionUnavailable         (* "MT5 connection unavailable. Trying to reconnect..." *)
| ReconnectFailed               (* "Failed to reconnect to MT5. Please check server status." *)
| BalanceReport (balance equity margin margin_free : Q)
| AccountInfoFailed             (* "Failed to retrieve account information" *)
| AccountBalanceError.          (* "Error retrieving account balance" *)

(** What a handler works on: the shared connection manager and the
    messages sent to the chat so far, oldest first. *)
Definition Chat : Type := (MT5ConnectionManager * list reply)%type.

(** The objects that are passed as arguments to the handlers. An update
    comes in two kinds: one whose replies are delivered, and one that
    cannot be answered, because [update.message] is [None] (then [e] is
    [AttributeError]) or because the send to Telegram fails (then [e] is
    the error of the network call). *)
Inductive py_object : Type :=
| BotObject                              (* the TelegramBot instance *)
| UpdateObject (effective_user_id : Z)   (* a telegram Update that can be answered *)
| UnanswerableUpdate (effective_user_id : Z) (e : exn)
                                         (* a telegram Update whose reply_text raises e *)
| ContextObject.                         (* a CallbackContext *)

(** [o.effective_user.id]: only an Update has the attribute. *)
Definition effective_user_id_of (o : py_object) : outcome Z :=
  match o with
  | UpdateObject user_id => Returns user_id
  | UnanswerableUpdate user_id _ => Returns user_id
  | _ => Raises (Exception "AttributeError")
  end.

(** [o.message.reply_text(text)]: only an Update has the attribute; the
    call adds the text to the chat when the update can be answered, and
    raises otherwise. *)
Definition reply_text (o : py_object) (text : reply) : Py Chat unit :=
  match o with
  | UpdateObject _ => on_snd (modify (fun sent => sent ++ [text]))
  | UnanswerableUpdate _ e => raise e
  | _ => raise (Exception "AttributeError")
  end.

(** A function of the program, called with its positional arguments. *)
Definition py_function : Type := list py_object -> Py Chat unit.

(** [secure_function(func)]: the [wrapper] it returns. Its first two
    positional parameters are [update] and [context]; it passes everything
    it was given on to [func]. *)
Definition secure_function (AUTHORIZED_USERS : list py_value) (func : py_function)
  : py_function :=
  fun args =>
    match args with
    | update :: context :: rest =>
        user_id <- answer (effective_user_id_of update) ;;
        if negb (is_authorized AUTHORIZED_USERS user_id) then
          reply_text update UnauthorizedAccess ;;;
          logger WARNING "Unauthorized access attempt" ;;;
          ret tt
        else func (update :: context :: rest)
    | _ => raise (Exception "TypeError")
    end.

(** [obj.method]: the function found in the class, with [obj] bound as its
    first positional argument. *)
Definition bound_method (obj : py_object) (f : py_function) : py_function :=
  fun args => f (obj :: args).

(** [TelegramBot.secure(self, func)]: the [wrapper(update, context)] it
    returns. *)
Definition secure (AUTHORIZED_USERS : list py_value) (func : py_function)
  : py_function :=
  fun args =>
    match args with
    | [update; context] => secure_function AUTHORIZED_USERS func [update; context]
    | _ => raise (Exception "TypeError")
    end.

(** The body of [TelegramBot.start_command(self, update, context)]. *)
Definition start_command_body : py_function :=
  fun args =>
    match args with
    | [self; update; context] => reply_text update Welcome
    | _ => raise (Exception "TypeError")
    end.

(** The fields of [mt5.account_info()] that the program reads. *)
Record AccountInfo : Type := {
  balance : Q;
  equity : Q;
  margin : Q;
  margin_free : Q
}.

(** What the outside world answers during one [account_balance]. *)
Record balance_env : Type := {
  at_ensure : connect_env;        (* during self.mt5_manager.ensure_connection() *)
  at_reconnect : connect_env;     (* during self.mt5_manager.reconnect(), after the sleep *)
  mt5_account_info : outcome (option AccountInfo)   (* None is Python's None *)
}.

(** The [try] block of [account_balance]: the message to send. *)
Definition balance_message (w : balance_env) : Py Chat reply :=
  account_info <- answer (mt5_account_info w) ;;
  match account_info with
  | Some info =>
      ret (BalanceReport (balance info) (equity info) (margin info) (margin_free info))
  | None => ret AccountInfoFailed
  end.

(** The body of [TelegramBot.account_balance(self, update, context)]. *)
Definition account_balance_body (w : balance_env) : py_function :=
  fun args =>
    match args with
    | [self; update; context] =>
        ok <- on_fst (ensure_connection (at_ensure w)) ;;
        gave_up <-
          (if negb ok then
             reply_text update ConnectionUnavailable ;;;
             time_sleep 2 ;;;
             again <- on_fst (reconnect (at_reconnect w)) ;;
             if negb again then
               reply_text update ReconnectFailed ;;;
               ret true                       (* return *)
             else ret false
           else ret false) ;;
        if gave_up : bool then ret tt
        else
          message <- try_except (balance_message w)
                       (fun _ =>
                          logger_exception "Account balance error" ;;;
                          ret AccountBalanceError) ;;
          reply_text update message
    | _ => raise (Exception "TypeError")
    end.

(** The handlers as the class holds them, decorated with
    [@secure_function], and as [TelegramBot.start] registers them:
    [self.secure(self.start_command)] and
    [self.secure(self.account_balance)]. *)
Definition start_command (AUTHORIZED_USERS : list py_value) : py_function :=
  secure_function AUTHORIZED_USERS start_command_body.

Definition account_balance (AUTHORIZED_USERS : list py_value) (w : balance_env)
  : py_function :=
  secure_function AUTHORIZED_USERS (account_balance_body w).

Definition registered (AUTHORIZED_USERS : list py_value) (method : py_function)
  : py_function :=
  secure AUTHORIZED_USERS (bound_method BotObject method).

(** ** Registering the handlers *)

(** The updater of the bot: the handlers added to its dispatcher, oldest
    first, and whether polling has started. *)
Record Updater : Type := {
  handlers : list string;
  polling : bool
}.

(** The methods that class [TelegramBot] defines. *)
Definition TelegramBot_methods : list string :=
  ["__init__"; "start"; "secure"; "start_command"; "account_balance";
   "system_status"].

(** The attributes that [TelegramBot.__init__] sets on the instance. *)
Definition TelegramBot_attributes : list string :=
  ["strategy_manager"; "updater"; "active_strategy_menu"; "mt5_manager";
   "main_menu"; "strategy_menu"; "strategy_control_menu"].

(** [dp.add_handler(...(self.secure(self.<method>)))]: the attribute is
    looked up first, then the handler is added. *)
Definition add_handler (method : string) : Py Updater unit :=
  if existsb (String.eqb method) (TelegramBot_attributes ++ TelegramBot_methods) then
    modify (fun u => {| handlers := handlers u ++ [method]; polling := polling u |})
  else raise (Exception "AttributeError").

(** [TelegramBot.start], from the fresh [Updater(token)]. *)
Definition TelegramBot_start : Py Updater unit :=
  (* Add handlers with security decorator *)
  add_handler "start_command" ;;;
  add_handler "account_balance" ;;;
  add_handler "show_strategy_menu" ;;;
  add_handler "show_terms" ;;;
  add_handler "system_status" ;;;
  add_handler "back_to_main" ;;;
  add_handler "show_strategy_menu" ;;;
  add_handler "select_strategy" ;;;
  add_handler "control_strategy" ;;;
  modify (fun u => {| handlers := handlers u; polling := true |}) ;;;
  logger INFO "Telegram bot started with enhanced security".

(** ** Sample chats *)

(** The user 4242 is authorized, by the text of the id. *)
Definition only_4242 : list py_value := [PyStr "4242"].

(** The terminal refuses the login at 1000 and would accept it 2 seconds
    later. *)
Definition refused_then_up : balance_env :=
  {| at_ensure := login_refused 1000;
     at_reconnect := terminal_up 1002;
     mt5_account_info :=
       Returns (Some {| balance := 1000; equity := 1000; margin := 0;
                        margin_free := 1000 |}) |}.

(* ================================================================= *)
(** * Properties *)

(** ** Float comparison *)

Lemma Qlt_bool_true (x y : Q) : Qlt_bool x y = true <-> (x < y)%Q.
Proof.
  unfold Qlt_bool. rewrite negb_true_iff.
  split; intros Hc.
  - apply Qnot_le_lt. intros Hle. apply Qle_bool_iff in Hle. congruence.
  - destruct (Qle_bool y x) eqn:E; [| reflexivity].
    apply Qle_bool_iff in E. exfalso. exact (Qlt_not_le _ _ Hc E).
Qed.

Lemma Qlt_bool_false (x y : Q) : Qlt_bool x y = false <-> (y <= x)%Q.
Proof.
  unfold Qlt_bool. rewrite negb_false_iff. apply Qle_bool_iff.
Qed.

(** ** The throttle of [connect] *)

Ltac run_py :=
  unfold connect, connect_attempt, try_except, bind, ret, get, modify, call,
    logger, logger_exception, emit, raise, time_sleep in *;
  cbn [fst snd app] in *.

(** Inside the throttle window [connect] does nothing at all. *)
Lemma connect_throttled (w : connect_env) (self : MT5ConnectionManager) :
  Qlt_bool (time_time w - last_connection_attempt self) 5 = true ->
  connect w self = (Returns (connected self), self, []).
Proof.
  intros Hthr. unfold connect, bind, get, ret.
  cbn [fst snd]. rewrite Hthr. reflexivity.
Qed.

(** Outside the window [connect] reaches [mt5.initialize()], stamps the
    attempt, and returns (never raises). *)
Lemma connect_not_throttled (w : connect_env) (self : MT5ConnectionManager) :
  Qlt_bool (time_time w - last_connection_attempt self) 5 = false ->
  exists b self' evs,
    connect w self = (Returns b, self', Mt5Initialize :: evs)
    /\ connected self' = b
    /\ last_connection_attempt self' = time_time w.
Proof.
  intros Hthr. unfold connect, bind, get, ret. cbn [fst snd].
  rewrite Hthr. run_py.
  destruct (mt5_initialize w) as [[|]|e];
    [destruct (mt5_login w) as [[|]|e] | |];
    cbn; try (do 3 eexists; split; [reflexivity | split; reflexivity]);
    destruct (mt5_last_error w) as [[]|e]; cbn;
    try (do 3 eexists; split; [reflexivity | split; reflexivity]);
    destruct (mt5_shutdown w) as [[]|e]; cbn;
    do 3 eexists; split; try reflexivity; split; reflexivity.
Qed.

Lemma connect_attempted_iff (w : connect_env) (self : MT5ConnectionManager) :
  attempted (trace_of (connect w self))
  = negb (Qlt_bool (time_time w - last_connection_attempt self) 5).
Proof.
  destruct (Qlt_bool (time_time w - last_connection_attempt self) 5) eqn:E.
  - rewrite (connect_throttled _ _ E). reflexivity.
  - destruct (connect_not_throttled _ _ E) as (b & self' & evs & -> & _).
    reflexivity.
Qed.

(** Whatever the spacing, a call that makes no attempt is answered from the
    cache. *)
Lemma connect_calls_no_attempt_cached (ws : list connect_env) :
  forall self,
    Forall (fun c => attempted (snd c) = false -> answered_from_cache c)
           (connect_calls ws self).
Proof.
  induction ws as [|w ws IH]; intros self; cbn [connect_calls].
  - constructor.
  - destruct (connect w self) as [[r self'] evs] eqn:E.
    constructor; [| apply IH].
    cbn [fst snd]. intros Hno.
    pose proof (connect_attempted_iff w self) as Hiff.
    rewrite E in Hiff. cbn [trace_of snd] in Hiff.
    rewrite Hno in Hiff. symmetry in Hiff. apply negb_false_iff in Hiff.
    rewrite (connect_throttled _ _ Hiff) in E.
    injection E as <- <- <-. split; reflexivity.
Qed.

(** Calls that all fall inside the throttle window of the last attempt make
    no attempt. *)
Lemma connect_calls_all_throttled (ws : list connect_env) :
  forall self,
    forallb (fun w' => Qlt_bool (time_time w' - last_connection_attempt self) 5) ws
    = true ->
    attempt_count (connect_calls ws self) = 0%nat.
Proof.
  induction ws as [|w ws IH]; intros self Hall; [reflexivity |].
  cbn [forallb] in Hall. apply andb_true_iff in Hall as [Hw Hrest].
  cbn [connect_calls]. rewrite (connect_throttled _ _ Hw).
  unfold attempt_count in *. cbn [List.filter snd attempted existsb].
  apply IH, Hrest.
Qed.

(** C1, as stated, fails: three calls at times 100, 103 and 106 are each
    less than 5 seconds after the one before, yet the first and the third
    both reach the terminal. *)
Lemma connect_closely_spaced_two_attempts :
  ~ (forall (ws : list connect_env) (self : MT5ConnectionManager),
        closely_spaced ws = true ->
        (attempt_count (connect_calls ws self) <= 1)%nat).
Proof.
  intros Hclaim.
  specialize (Hclaim [terminal_up 100; terminal_up 103; terminal_up 106]
                initialize eq_refl).
  vm_compute in Hclaim. lia.
Qed.

(** C1, amended: when every call of a sequence of [connect] calls comes
    less than 5 seconds after every earlier call of the sequence, at most
    one call makes a real connection attempt; every call that makes none
    leaves no event and returns the cached [connected] flag. *)
Theorem connect_window_at_most_one_attempt
  (ws : list connect_env) (self : MT5ConnectionManager) :
  within_window ws = true ->
  (attempt_count (connect_calls ws self) <= 1)%nat
  /\ Forall (fun c => attempted (snd c) = false -> answered_from_cache c)
            (connect_calls ws self).
Proof.
  intros Hwin. split; [| apply connect_calls_no_attempt_cached].
  revert self Hwin.
  induction ws as [|w ws IH]; intros self Hwin; [cbn; lia |].
  cbn [within_window] in Hwin. apply andb_true_iff in Hwin as [Hw Hrest].
  cbn [connect_calls].
  destruct (Qlt_bool (time_time w - last_connection_attempt self) 5) eqn:E.
  - rewrite (connect_throttled _ _ E).
    unfold attempt_count in *. cbn [List.filter snd attempted existsb].
    apply IH, Hrest.
  - destruct (connect_not_throttled _ _ E) as (b & self' & evs & -> & _ & Hlast).
    pose proof (connect_calls_all_throttled ws self') as Hnone.
    rewrite Hlast in Hnone. specialize (Hnone Hw).
    unfold attempt_count in *.
    cbn [List.filter snd attempted existsb is_attempt orb length].
    rewrite Hnone. lia.
Qed.

(** The scenario of the spec: two calls 2 seconds apart, one attempt, the
    second call answered from the cache. *)
Lemma connect_window_at_most_one_attempt_witness :
  within_window [terminal_up 100; terminal_up 102] = true
  /\ (attempt_count (connect_calls [terminal_up 100; terminal_up 102] initialize) <= 1)%nat
  /\ Forall (fun c => attempted (snd c) = false -> answered_from_cache c)
            (connect_calls [terminal_up 100; terminal_up 102] initialize).
Proof.
  split; [reflexivity |].
  apply (connect_window_at_most_one_attempt
           [terminal_up 100; terminal_up 102] initialize).
  reflexivity.
Defined.

(** ** The outcome of a real attempt *)

(** A real attempt returns what the terminal answered, and the flag agrees
    with the return value; no exception leaves [connect]. *)
Lemma connect_result (w : connect_env) (self : MT5ConnectionManager) :
  Qlt_bool (time_time w - last_connection_attempt self) 5 = false ->
  result_of (connect w self) = Returns (terminal_accepts w)
  /\ connected (state_of (connect w self)) = terminal_accepts w.
Proof.
  intros Hthr. unfold terminal_accepts, result_of, state_of.
  unfold connect, bind, get, ret. cbn [fst snd]. rewrite Hthr. run_py.
  destruct (mt5_initialize w) as [[|]|e];
    [destruct (mt5_login w) as [[|]|e] | |]; cbn;
    try (split; reflexivity);
    destruct (mt5_last_error w) as [[]|e]; cbn; try (split; reflexivity);
    destruct (mt5_shutdown w) as [[]|e]; cbn; split; reflexivity.
Qed.

(** [connect] never raises, throttled or not. *)
Lemma connect_never_raises (w : connect_env) (self : MT5ConnectionManager) :
  exists b, result_of (connect w self) = Returns b.
Proof.
  destruct (Qlt_bool (time_time w - last_connection_attempt self) 5) eqn:E.
  - rewrite (connect_throttled _ _ E). eexists. reflexivity.
  - destruct (connect_result _ _ E) as [-> _]. eexists. reflexivity.
Qed.

(** When the attempt fails by a false return and [mt5.last_error()]
    answers, the session is shut down before [connect] returns. *)
Lemma connect_false_return_shuts_down (w : connect_env) (self : MT5ConnectionManager) :
  Qlt_bool (time_time w - last_connection_attempt self) 5 = false ->
  fails_by_return w = true ->
  mt5_last_error w = Returns tt ->
  existsb is_shutdown (trace_of (connect w self)) = true.
Proof.
  intros Hthr Hfail Herr. unfold fails_by_return in Hfail. unfold trace_of.
  unfold connect, bind, get, ret. cbn [fst snd]. rewrite Hthr. run_py.
  destruct (mt5_initialize w) as [[|]|e]; try discriminate;
    [destruct (mt5_login w) as [[|]|e]; try discriminate |];
    cbn; rewrite Herr; cbn;
    destruct (mt5_shutdown w) as [[]|e]; reflexivity.
Qed.

(** ** [reconnect] *)

(** C5, as stated, fails: two seconds after an attempt, [reconnect] on a
    connected manager reaches no terminal call although the terminal would
    accept; it returns False and leaves the manager disconnected. *)
Lemma reconnect_inside_window_no_attempt :
  ~ (forall (w : connect_env) (self : MT5ConnectionManager),
        attempted (trace_of (reconnect w self)) = true
        /\ result_of (reconnect w self) = Returns (terminal_accepts w)).
Proof.
  intros Hclaim.
  destruct (Hclaim (terminal_up 102) connected_at_100) as [Hatt _].
  vm_compute in Hatt. discriminate.
Qed.

(** C5, amended: [reconnect] clears the [connected] flag and calls the
    throttled [connect]. A real attempt is made exactly when at least 5
    seconds have passed since the last attempt, and then the result is the
    answer of that fresh attempt; inside the window no attempt is made,
    False is returned and the manager stays disconnected. *)
Theorem reconnect_attempts_outside_window
  (w : connect_env) (self : MT5ConnectionManager) :
  reconnect w self = connect w (set_connected false self)
  /\ attempted (trace_of (reconnect w self))
     = negb (Qlt_bool (time_time w - last_connection_attempt self) 5)
  /\ (if Qlt_bool (time_time w - last_connection_attempt self) 5
      then reconnect w self = (Returns false, set_connected false self, [])
      else result_of (reconnect w self) = Returns (terminal_accepts w)
           /\ connected (state_of (reconnect w self)) = terminal_accepts w).
Proof.
  assert (Hdef : reconnect w self = connect w (set_connected false self)).
  { unfold reconnect, bind, modify. cbn [fst snd].
    destruct (connect w (set_connected false self)) as [[r s] evs].
    reflexivity. }
  split; [exact Hdef |]. rewrite Hdef. split.
  - rewrite (connect_attempted_iff w (set_connected false self)). reflexivity.
  - destruct (Qlt_bool (time_time w - last_connection_attempt self) 5) eqn:E.
    + apply (connect_throttled w (set_connected false self)). exact E.
    + apply (connect_result w (set_connected false self)). exact E.
Qed.

(** ** A failed attempt *)

(** C6 at the failing input: [mt5.initialize()] succeeds and [mt5.login]
    raises. The exception is caught, the manager is disconnected and False
    is returned, but [mt5.shutdown()] is not called: the [except] branch
    lacks the release that the false-return branch performs. *)
Theorem connect_login_raises_no_shutdown :
  connect (login_raises 100) initialize
  = (Returns false,
     {| connected := false; last_connection_attempt := 100;
        connection_interval := 60 |},
     [Mt5Initialize; Mt5Login; Log ERROR "MT5 connection exception"])
  /\ existsb is_shutdown (trace_of (connect (login_raises 100) initialize)) = false.
Proof. split; reflexivity. Qed.

(** ** The health gate *)

Ltac run_health :=
  unfold health_check, ensure_connection, get_system_status,
    get_network_latency, bind, ret, get, modify, call, logger, emit in *;
  cbn [fst snd app negb] in *.

(** C4, as stated, fails: [health_check] hands its caller a bare boolean,
    not a pair of a verdict and a reason. *)
Lemma health_check_no_reason :
  ~ (health_check_value cpu_95_health "Breakout" connected_at_100
     = Returns (PyTuple [PyBool false; PyStr "resource_exhausted"])).
Proof. vm_compute. discriminate. Qed.

(** C4, amended: [health_check] returns a bare boolean. With the
    connection up and a CPU sample above 90 (95 in the scenario, with
    memory 50 and latency 10) it returns False; the only trace of the cause
    is the logged high-CPU warning, and neither the connection nor the
    memory and latency checks leave an event. *)
Theorem health_check_high_cpu
  (w : health_env) (self_name : string) (mgr : MT5ConnectionManager)
  (status : SystemStatus) :
  connected mgr = true ->
  system_status w = Returns status ->
  (90 < cpu status)%Q ->
  health_check w self_name mgr
  = (Returns false, mgr, [GetSystemStatus; Log WARNING "High CPU usage"])
  /\ health_check_value w self_name mgr = Returns (PyBool false).
Proof.
  intros Hconn Hstatus Hcpu.
  apply Qlt_bool_true in Hcpu.
  assert (Hrun : health_check w self_name mgr
                 = (Returns false, mgr, [GetSystemStatus; Log WARNING "High CPU usage"])).
  { run_health. rewrite Hconn. cbn. rewrite Hstatus. cbn. rewrite Hcpu. reflexivity. }
  split; [exact Hrun |].
  unfold health_check_value. rewrite Hrun. reflexivity.
Qed.

Lemma health_check_high_cpu_witness :
  health_check cpu_95_health "Breakout" connected_at_100
  = (Returns false, connected_at_100, [GetSystemStatus; Log WARNING "High CPU usage"])
  /\ health_check_value cpu_95_health "Breakout" connected_at_100
     = Returns (PyBool false).
Proof.
  apply (health_check_high_cpu cpu_95_health "Breakout" connected_at_100
           {| cpu := 95; memory_percent := 50; disk_percent := 10 |}).
  - reflexivity.
  - reflexivity.
  - reflexivity.
Defined.

(** ** The market-data cache of the SMC strategy *)

Ltac run_cache :=
  unfold SMCStrategy.get_cached_data, SMCStrategy.update_cache, try_except,
    bind, ret, get, modify, call, answer, logger, emit, raise in *;
  cbn [fst snd app] in *.

(** The last statement of [get_cached_data] decides its result: with the
    cache still [None] it raises, otherwise it returns a copy. *)
Lemma get_cached_data_result (w : iter_env) (force_update : bool) (self : SMCStrategy.t) :
  let r := SMCStrategy.get_cached_data w force_update self in
  match SMCStrategy.data_cache (state_of r) with
  | None => result_of r = Raises (Exception "AttributeError")
  | Some df => result_of r = Returns (Some (copy df))
  end.
Proof.
  unfold result_of, state_of. run_cache.
  destruct (force_update || is_None (SMCStrategy.data_cache self)
            || Qlt_bool 30 (fetch_time w - SMCStrategy.last_update self)).
  - destruct (mt5_copy_rates_from_pos w) as [rates|e]; cbn;
      [destruct (pd_DataFrame w) as [df|e]; cbn;
       [destruct (pd_to_datetime w) as [df'|e]; cbn |] |];
      try reflexivity;
      destruct (SMCStrategy.data_cache self) eqn:E; cbn; rewrite E; reflexivity.
  - cbn. destruct (SMCStrategy.data_cache self) eqn:E; cbn; rewrite E; reflexivity.
Qed.

(** While the cache is [None], a fetch that fails leaves it [None]. *)
Lemma get_cached_data_empty_stays_empty
  (w : iter_env) (force_update : bool) (self : SMCStrategy.t) :
  SMCStrategy.data_cache self = None ->
  fetch_fails w = true ->
  SMCStrategy.data_cache (state_of (SMCStrategy.get_cached_data w force_update self))
  = None.
Proof.
  intros Hcache Hfail. unfold state_of, fetch_fails in *. run_cache.
  rewrite Hcache. cbn [is_None]. rewrite orb_true_r. cbn [orb].
  destruct (mt5_copy_rates_from_pos w) as [rates|e]; cbn;
    [destruct (pd_DataFrame w) as [df|e]; [discriminate |] |];
    cbn; rewrite Hcache; cbn; exact Hcache.
Qed.

(** While the cache is [None], an update whose frame is built and whose
    time conversion raises: the frame assigned before the conversion is
    what the call returns. *)
Lemma get_cached_data_empty_conversion_raises
  (w : iter_env) (force_update : bool) (self : SMCStrategy.t)
  (rates : py_value) (df : DataFrame) (e : exn) :
  SMCStrategy.data_cache self = None ->
  mt5_copy_rates_from_pos w = Returns rates ->
  pd_DataFrame w = Returns df ->
  pd_to_datetime w = Raises e ->
  SMCStrategy.get_cached_data w force_update self
  = (Returns (Some (copy df)),
     SMCStrategy.set_data_cache (Some df) self,
     [SMCStrategy.copy_rates_event self; Log ERROR "Failed to update market data"]).
Proof.
  intros Hcache Hrates Hframe Htime. run_cache.
  rewrite Hcache. cbn [is_None]. rewrite orb_true_r. cbn [orb].
  rewrite Hrates. cbn. rewrite Hframe. cbn. rewrite Htime. cbn. reflexivity.
Qed.

(** While the cache is [None], an update that runs to its end. *)
Lemma get_cached_data_empty_update_completes
  (w : iter_env) (force_update : bool) (self : SMCStrategy.t)
  (rates : py_value) (df df' : DataFrame) :
  SMCStrategy.data_cache self = None ->
  mt5_copy_rates_from_pos w = Returns rates ->
  pd_DataFrame w = Returns df ->
  pd_to_datetime w = Returns df' ->
  SMCStrategy.get_cached_data w force_update self
  = (Returns (Some (copy df')),
     SMCStrategy.set_last_update (fetch_time w)
       (SMCStrategy.set_data_cache (Some df') self),
     [SMCStrategy.copy_rates_event self; Log DEBUG "Updated market data cache"]).
Proof.
  intros Hcache Hrates Hframe Htime. run_cache.
  rewrite Hcache. cbn [is_None]. rewrite orb_true_r. cbn [orb].
  rewrite Hrates. cbn. rewrite Hframe. cbn. rewrite Htime. cbn. reflexivity.
Qed.

(** C10, as stated, fails: a call on an empty cache whose update does not
    complete need not raise. On the fresh strategy, when the frame is built
    and the conversion of its time column raises, the update is logged as
    failed and yet the call returns a frame. *)
Lemma get_cached_data_returns_after_failed_update :
  ~ (forall (w : iter_env) (force_update : bool) (self : SMCStrategy.t),
        SMCStrategy.data_cache self = None ->
        refreshed (trace_of (SMCStrategy.get_cached_data w force_update self)) = false ->
        result_of (SMCStrategy.get_cached_data w force_update self)
        = Raises (Exception "AttributeError")).
Proof.
  intros Hclaim.
  specialize (Hclaim (no_time_column 1100) false smc_eurusd eq_refl eq_refl).
  vm_compute in Hclaim. discriminate.
Qed.

(** C10, amended: [get_cached_data] never returns [None], so the
    [df is None] test of the caller never sees [None]. Its result is
    decided by the cache it leaves behind: [AttributeError] when the cache
    is still [None], a copy of the cached frame otherwise. On an empty
    cache there are three cases. When [mt5.copy_rates_from_pos] or
    [pd.DataFrame] raises, the cache stays [None] and the call raises.
    When the frame is built and the conversion of its time column raises,
    the update is logged as failed and [last_update] is not advanced, but
    the cache already holds the unconverted frame and the call returns a
    copy of it. When the update runs to its end, the call returns a copy
    of the converted frame and [last_update] is the time of the call. *)
Theorem get_cached_data_never_returns_None
  (w : iter_env) (force_update : bool) (self : SMCStrategy.t) :
  let r := SMCStrategy.get_cached_data w force_update self in
  returns_None (result_of r) = false
  /\ match SMCStrategy.data_cache (state_of r) with
     | None => result_of r = Raises (Exception "AttributeError")
     | Some df => result_of r = Returns (Some (copy df))
     end
  /\ (SMCStrategy.data_cache self = None ->
      fetch_fails w = true ->
      result_of r = Raises (Exception "AttributeError")
      /\ SMCStrategy.data_cache (state_of r) = None)
  /\ (SMCStrategy.data_cache self = None ->
      forall (rates : py_value) (df : DataFrame) (e : exn),
        mt5_copy_rates_from_pos w = Returns rates ->
        pd_DataFrame w = Returns df ->
        pd_to_datetime w = Raises e ->
        refreshed (trace_of r) = false
        /\ r = (Returns (Some (copy df)),
                SMCStrategy.set_data_cache (Some df) self,
                [SMCStrategy.copy_rates_event self;
                 Log ERROR "Failed to update market data"]))
  /\ (SMCStrategy.data_cache self = None ->
      forall (rates : py_value) (df df' : DataFrame),
        mt5_copy_rates_from_pos w = Returns rates ->
        pd_DataFrame w = Returns df ->
        pd_to_datetime w = Returns df' ->
        refreshed (trace_of r) = true
        /\ r = (Returns (Some (copy df')),
                SMCStrategy.set_last_update (fetch_time w)
                  (SMCStrategy.set_data_cache (Some df') self),
                [SMCStrategy.copy_rates_event self;
                 Log DEBUG "Updated market data cache"])).
Proof.
  intros r. pose proof (get_cached_data_result w force_update self) as Hres.
  cbv zeta in Hres. fold r in Hres.
  split; [| split; [exact Hres |]].
  - destruct (SMCStrategy.data_cache (state_of r));
      cbv beta iota in Hres; rewrite Hres; reflexivity.
  - split; [| split].
    + intros Hcache Hfail.
      pose proof (get_cached_data_empty_stays_empty w force_update self Hcache Hfail)
        as Hstill.
      fold r in Hstill.
      rewrite Hstill in Hres. split; [exact Hres | exact Hstill].
    + intros Hcache rates df e Hrates Hframe Htime.
      pose proof (get_cached_data_empty_conversion_raises
                    w force_update self rates df e Hcache Hrates Hframe Htime) as Hrun.
      fold r in Hrun. rewrite Hrun. split; reflexivity.
    + intros Hcache rates df df' Hrates Hframe Htime.
      pose proof (get_cached_data_empty_update_completes
                    w force_update self rates df df' Hcache Hrates Hframe Htime) as Hrun.
      fold r in Hrun. rewrite Hrun. split; reflexivity.
Qed.

Lemma get_cached_data_never_returns_None_witness :
  (SMCStrategy.data_cache smc_eurusd = None
   /\ fetch_fails (no_rates 1000) = true
   /\ result_of (SMCStrategy.get_cached_data (no_rates 1000) false smc_eurusd)
      = Raises (Exception "AttributeError")
   /\ SMCStrategy.data_cache
        (state_of (SMCStrategy.get_cached_data (no_rates 1000) false smc_eurusd))
      = None)
  /\ (mt5_copy_rates_from_pos (no_time_column 1100) = Returns PyNone
      /\ pd_DataFrame (no_time_column 1100) = Returns raw_bar
      /\ pd_to_datetime (no_time_column 1100) = Raises (Exception "KeyError")
      /\ refreshed
           (trace_of (SMCStrategy.get_cached_data (no_time_column 1100) false smc_eurusd))
         = false
      /\ SMCStrategy.get_cached_data (no_time_column 1100) false smc_eurusd
         = (Returns (Some (copy raw_bar)),
            SMCStrategy.set_data_cache (Some raw_bar) smc_eurusd,
            [SMCStrategy.copy_rates_event smc_eurusd;
             Log ERROR "Failed to update market data"])).
Proof.
  split.
  - split; [reflexivity |]. split; [reflexivity |].
    destruct (get_cached_data_never_returns_None (no_rates 1000) false smc_eurusd)
      as (_ & _ & Hfails & _).
    apply Hfails; reflexivity.
  - split; [reflexivity |]. split; [reflexivity |]. split; [reflexivity |].
    destruct (get_cached_data_never_returns_None (no_time_column 1100) false smc_eurusd)
      as (_ & _ & _ & Hconv & _).
    apply (Hconv eq_refl PyNone raw_bar (Exception "KeyError")); reflexivity.
Defined.

(** In the loop, the [AttributeError] of an empty cache reaches the handler
    of [execute]: the iteration logs the error and backs off 5 seconds. *)
Lemma smc_empty_cache_backs_off :
  trace_of (iteration (no_rates 1000) (connected_at_100, smc_eurusd))
  = [GetSystemStatus; GetNetworkLatency;
     Mt5CopyRatesFromPos (PyStr "EURUSD") TIMEFRAME_M15 0 (PyInt 100);
     Log ERROR "Failed to update market data";
     Log ERROR "SMC strategy error"; Sleep 5].
Proof. vm_compute. reflexivity. Qed.

(** ** Configuration updates *)

(** X9: [update_config] merges: an updated key reads the new value, any
    other key reads what it read before (its default included). *)
Lemma update_config_merges (new_config : gmap string py_value)
  (self : TradingStrategy) (key : string) (dflt : py_value) :
  dict_get (config (state_of (update_config new_config self))) key dflt
  = match new_config !! key with
    | Some v => v
    | None => dict_get (config self) key dflt
    end.
Proof.
  unfold update_config, state_of, bind, modify, get, logger, emit, dict_get,
    dict_update.
  cbn [fst snd set_config config].
  rewrite lookup_union.
  destruct (new_config !! key) as [v|] eqn:E.
  - destruct (config self !! key); reflexivity.
  - destruct (config self !! key); reflexivity.
Qed.

(** [update_config] leaves the running flag alone: no restart. *)
Lemma update_config_keeps_active (new_config : gmap string py_value)
  (self : TradingStrategy) :
  active (state_of (update_config new_config self)) = active self.
Proof. reflexivity. Qed.

(** The symbol and the timeframe that the SMC strategy fetches with are
    the attributes bound by [__init__]; [update_config] never rebinds
    them. *)
Lemma smc_update_config_keeps_symbol (new_config : gmap string py_value)
  (self : SMCStrategy.t) :
  SMCStrategy.symbol (update_config_on new_config self) = SMCStrategy.symbol self
  /\ SMCStrategy.timeframe (update_config_on new_config self)
     = SMCStrategy.timeframe self.
Proof. split; reflexivity. Qed.

(** C7 at the failing input: an SMC strategy created for EURUSD receives
    the update symbol GBPUSD, timeframe H1, lookback_bars 500. The
    configuration holds the new values and the strategy keeps running
    state, but the next fetch still asks for EURUSD on M15; only
    lookback_bars, which the loop reads from the dictionary, has taken
    effect. *)
Theorem smc_update_config_symbol_ignored :
  let updated := update_config_on to_gbpusd smc_eurusd in
  dict_get (config (SMCStrategy.base updated)) "symbol" PyNone = PyStr "GBPUSD"
  /\ dict_get (config (SMCStrategy.base updated)) "timeframe" PyNone = TIMEFRAME_H1
  /\ trace_of (SMCStrategy.get_cached_data (calm 1000) false updated)
     = [Mt5CopyRatesFromPos (PyStr "EURUSD") TIMEFRAME_M15 0 (PyInt 500);
        Log DEBUG "Updated market data cache"].
Proof. vm_compute. repeat split; reflexivity. Qed.

(** ** The loop shell: faults are caught, only [stop()] ends the loop *)

Section LoopProperties.
Context {T : Type} `{StrategyLaws T}.

(** One pass through the [try] statement, by the outcome of its body. *)
Lemma iteration_spec (w : iter_env) (st : MT5ConnectionManager * T) :
  match try_body w st with
  | (Raises _, st1, evs) =>
      iteration w st = (Returns tt, st1, evs ++ [Log ERROR error_message; Sleep 5])
  | (Returns _, st1, evs) => iteration w st = (Returns tt, st1, evs)
  end.
Proof.
  unfold iteration, try_except.
  destruct (try_body w st) as [[[[]|e] st1] evs]; reflexivity.
Qed.

(** No exception leaves the [try] statement. *)
Lemma iteration_returns (w : iter_env) (st : MT5ConnectionManager * T) :
  result_of (iteration w st) = Returns tt.
Proof.
  pose proof (iteration_spec w st) as Hspec.
  destruct (try_body w st) as [[[a|e] st1] evs]; rewrite Hspec; reflexivity.
Qed.

Lemma iteration_state (w : iter_env) (st : MT5ConnectionManager * T) :
  state_of (iteration w st) = state_of (try_body w st).
Proof.
  pose proof (iteration_spec w st) as Hspec.
  destruct (try_body w st) as [[[a|e] st1] evs]; rewrite Hspec; reflexivity.
Qed.

Lemma iteration_fault_handled (w : iter_env) (st : MT5ConnectionManager * T) :
  fault_handled {| seen := st; world := w; emitted := trace_of (iteration w st) |}.
Proof.
  unfold fault_handled. cbn [seen world emitted].
  pose proof (iteration_spec w st) as Hspec.
  destruct (try_body w st) as [[[a|e] st1] evs]; rewrite Hspec; reflexivity.
Qed.

(** The iteration leaves the running flag as it found it. *)
Lemma iteration_keeps_active (w : iter_env) (st : MT5ConnectionManager * T) :
  is_active (state_of (iteration w st)) = is_active st.
Proof.
  unfold is_active. rewrite iteration_state, try_body_keeps_base. reflexivity.
Qed.

Lemma observe_stop_active (w : iter_env) (st : MT5ConnectionManager * T) :
  is_active (observe_stop w st) = negb (stop_requested w) && is_active st.
Proof.
  unfold observe_stop, is_active.
  destruct (stop_requested w); cbn [negb andb snd]; [| reflexivity].
  rewrite base_with_base. reflexivity.
Qed.

(** A property of single iterations holds of every iteration of a run. *)
Lemma run_loop_Forall (P : iteration_record T -> Prop) :
  (forall w st, P {| seen := st; world := w; emitted := trace_of (iteration w st) |}) ->
  forall ws st, Forall P (trace_of_run (run_loop ws st)).
Proof.
  intros HP ws. induction ws as [|w ws IH]; intros st; cbn [run_loop].
  - destruct (is_active st); constructor.
  - destruct (is_active st); [| constructor].
    pose proof (HP w st) as Hthis.
    destruct (iteration w st) as [[r st1] evs].
    destruct r as [a|e].
    + specialize (IH (observe_stop w st1)).
      destruct (run_loop ws (observe_stop w st1)) as [[status st'] rest].
      constructor; [exact Hthis | exact IH].
    + constructor; [exact Hthis | constructor].
Qed.

(** C8: in every run of a strategy loop, no exception leaves the loop;
    an iteration whose body raises logs the error and sleeps 5 seconds;
    the loop has exited only with the running flag cleared; and as long
    as the flag was set and no [stop()] arrives, every iteration the
    environment offers is executed, whatever fails inside. *)
Theorem loop_survives_faults (ws : list iter_env) (st : MT5ConnectionManager * T) :
  let run := run_loop ws st in
  is_crashed (status_of_run run) = false
  /\ Forall fault_handled (trace_of_run run)
  /\ (is_exited (status_of_run run) = true -> is_active (state_of_run run) = false)
  /\ (is_active st = true ->
      never_stopped ws = true ->
      status_of_run run = StillRunning
      /\ length (trace_of_run run) = length ws).
Proof.
  cbv zeta. split; [| split; [| split]].
  - revert st. induction ws as [|w ws IH]; intros st; cbn [run_loop].
    + destruct (is_active st); reflexivity.
    + destruct (is_active st); [| reflexivity].
      pose proof (iteration_returns w st) as Hret.
      destruct (iteration w st) as [[r st1] evs].
      cbn in Hret. subst r.
      specialize (IH (observe_stop w st1)).
      destruct (run_loop ws (observe_stop w st1)) as [[status st'] rest].
      exact IH.
  - apply run_loop_Forall. apply iteration_fault_handled.
  - revert st. induction ws as [|w ws IH]; intros st; cbn [run_loop].
    + destruct (is_active st) eqn:E; [discriminate | intros _; exact E].
    + destruct (is_active st) eqn:E; [| intros _; exact E].
      destruct (iteration w st) as [[[a|e] st1] evs]; [| discriminate].
      specialize (IH (observe_stop w st1)).
      destruct (run_loop ws (observe_stop w st1)) as [[status st'] rest].
      exact IH.
  - revert st. induction ws as [|w ws IH]; intros st Hact Hnever; cbn [run_loop].
    + rewrite Hact. split; reflexivity.
    + rewrite Hact.
      cbn [never_stopped forallb] in Hnever.
      apply andb_true_iff in Hnever as [Hw Hrest].
      pose proof (iteration_returns w st) as Hret.
      pose proof (iteration_keeps_active w st) as Hkeep.
      destruct (iteration w st) as [[r st1] evs].
      cbn in Hret, Hkeep. subst r.
      assert (Hnext : is_active (observe_stop w st1) = true).
      { rewrite observe_stop_active, Hw, Hkeep, Hact. reflexivity. }
      specialize (IH (observe_stop w st1) Hnext Hrest).
      destruct (run_loop ws (observe_stop w st1)) as [[status st'] rest].
      cbn in IH |- *. destruct IH as [-> ->]. split; reflexivity.
Qed.
End LoopProperties.

(** ** Frame conditions, by the structure of a computation *)

Section Preserves.
Context {S X : Type} (f : S -> X).

Lemma preserves_ret {A} (a : A) : preserves f (ret a).
Proof. intros s. reflexivity. Qed.

Lemma preserves_get : preserves f get.
Proof. intros s. reflexivity. Qed.

Lemma preserves_emit (ev : event) : preserves f (emit ev).
Proof. intros s. reflexivity. Qed.

Lemma preserves_call {A} (ev : event) (o : outcome A) : preserves f (call ev o).
Proof. intros s. reflexivity. Qed.

Lemma preserves_answer {A} (o : outcome A) : preserves f (answer o).
Proof. intros s. reflexivity. Qed.

Lemma preserves_raise {A} (e : exn) : preserves f (raise (A := A) e).
Proof. intros s. reflexivity. Qed.

Lemma preserves_modify (g : S -> S) :
  (forall s, f (g s) = f s) -> preserves f (modify g).
Proof. intros Hg s. apply Hg. Qed.

Lemma preserves_bind {A B} (m : Py S A) (k : A -> Py S B) :
  preserves f m -> (forall a, preserves f (k a)) -> preserves f (bind m k).
Proof.
  intros Hm Hk s. unfold bind, state_of.
  specialize (Hm s). unfold state_of in Hm.
  destruct (m s) as [[[a|e] s1] ev1]; cbn [fst snd] in *; [| exact Hm].
  specialize (Hk a s1). unfold state_of in Hk.
  destruct (k a s1) as [[r s2] ev2]. cbn [fst snd] in *. congruence.
Qed.

Lemma preserves_try_except {A} (m : Py S A) (h : exn -> Py S A) :
  preserves f m -> (forall e, preserves f (h e)) -> preserves f (try_except m h).
Proof.
  intros Hm Hh s. unfold try_except, state_of.
  specialize (Hm s). unfold state_of in Hm.
  destruct (m s) as [[[a|e] s1] ev1]; cbn [fst snd] in *; [exact Hm |].
  specialize (Hh e s1). unfold state_of in Hh.
  destruct (h e s1) as [[r s2] ev2]. cbn [fst snd] in *. congruence.
Qed.

Lemma preserves_time_sleep (q : Q) : preserves f (time_sleep q).
Proof. apply preserves_emit. Qed.

Lemma preserves_logger (level : log_level) (msg : string) :
  preserves f (logger level msg).
Proof. apply preserves_emit. Qed.

Lemma preserves_time_sleep_value (v : py_value) : preserves f (time_sleep_value v).
Proof.
  unfold time_sleep_value. destruct (as_number v) as [q|].
  - destruct (Qlt_bool q 0); [apply preserves_raise | apply preserves_time_sleep].
  - apply preserves_raise.
Qed.
End Preserves.

(** A computation on the connection manager leaves the strategy object
    alone, and one on the strategy object leaves the manager alone. *)
Lemma preserves_on_fst {S1 S2 A X} (g : S2 -> X) (m : Py S1 A) :
  preserves (fun st : S1 * S2 => g (snd st)) (on_fst m).
Proof.
  intros st. unfold on_fst, state_of.
  destruct (m (fst st)) as [[r s1] evs]. reflexivity.
Qed.

Lemma preserves_on_snd_fst {S1 S2 A X} (g : S1 -> X) (m : Py S2 A) :
  preserves (fun st : S1 * S2 => g (fst st)) (on_snd m).
Proof.
  intros st. unfold on_snd, state_of.
  destruct (m (snd st)) as [[r s2] evs]. reflexivity.
Qed.

Lemma preserves_on_snd {S1 S2 A X} (g : S2 -> X) (m : Py S2 A) :
  preserves g m -> preserves (fun st : S1 * S2 => g (snd st)) (on_snd m).
Proof.
  intros Hm st. unfold on_snd, state_of.
  specialize (Hm (snd st)). unfold state_of in Hm.
  destruct (m (snd st)) as [[r s2] evs]. exact Hm.
Qed.

Lemma preserves_on_snd_manager {S1 S2 A} (m : Py S2 A) :
  preserves (fun st : S1 * S2 => fst st) (on_snd m).
Proof. apply (preserves_on_snd_fst (fun x => x)). Qed.

Ltac frame_step :=
  lazymatch goal with
  | |- preserves _ (bind _ _) => apply preserves_bind; [| intros ?]
  | |- preserves _ (try_except _ _) => apply preserves_try_except; [| intros ?]
  | |- preserves _ (ret _) => apply preserves_ret
  | |- preserves _ get => apply preserves_get
  | |- preserves _ (time_sleep_value _) => apply preserves_time_sleep_value
  | |- preserves _ (time_sleep _) => apply preserves_time_sleep
  | |- preserves _ (logger _ _) => apply preserves_logger
  | |- preserves _ (logger_exception _) => apply preserves_emit
  | |- preserves _ (emit _) => apply preserves_emit
  | |- preserves _ (call _ _) => apply preserves_call
  | |- preserves _ (answer _) => apply preserves_answer
  | |- preserves _ (raise _) => apply preserves_raise
  | |- preserves _ (on_fst _) => apply preserves_on_fst
  | |- preserves _ (on_snd _) =>
      first [apply preserves_on_snd_manager | apply preserves_on_snd]
  | |- preserves _ (modify _) => apply preserves_modify; intros ?; reflexivity
  | |- preserves _ (SMCStrategy.get_cached_data _ _) =>
      unfold SMCStrategy.get_cached_data, SMCStrategy.update_cache
  | |- preserves _ (TriangleArbitrageStrategy.in_cooldown _ _) =>
      unfold TriangleArbitrageStrategy.in_cooldown
  | |- preserves _ (if ?b then _ else _) => destruct b
  | |- preserves _ (match ?x with _ => _ end) => destruct x
  end.

Ltac frame := repeat frame_step.

(** ** The three classes obey the laws of the loop shell *)

Lemma arbitrage_body_keeps_base (w : iter_env) :
  preserves (fun st => TriangleArbitrageStrategy.base (snd st))
            (TriangleArbitrageStrategy.body w).
Proof.
  unfold TriangleArbitrageStrategy.body, TriangleArbitrageStrategy.in_cooldown.
  frame.
Qed.

Lemma smc_get_cached_data_keeps_base (w : iter_env) (force_update : bool) :
  preserves SMCStrategy.base (SMCStrategy.get_cached_data w force_update).
Proof.
  unfold SMCStrategy.get_cached_data, SMCStrategy.update_cache. frame.
Qed.

Lemma smc_body_keeps_base (w : iter_env) :
  preserves (fun st => SMCStrategy.base (snd st)) (SMCStrategy.body w).
Proof.
  unfold SMCStrategy.body. frame.
Qed.

Lemma breakout_body_keeps_base (w : iter_env) :
  preserves (fun st => BreakoutStrategy.base (snd st)) (BreakoutStrategy.body w).
Proof.
  unfold BreakoutStrategy.body. frame.
Qed.

#[global] Instance arbitrage_laws : StrategyLaws TriangleArbitrageStrategy.t.
Proof.
  split; [| reflexivity].
  intros w st. apply (arbitrage_body_keeps_base w st).
Qed.

#[global] Instance smc_laws : StrategyLaws SMCStrategy.t.
Proof.
  split; [| reflexivity].
  intros w st. apply (smc_body_keeps_base w st).
Qed.

#[global] Instance breakout_laws : StrategyLaws BreakoutStrategy.t.
Proof.
  split; [| reflexivity].
  intros w st. apply (breakout_body_keeps_base w st).
Qed.

(** The arbitrage loop over four iterations, the third of which fails in
    the decision logic: the failure is logged and followed by the 5 second
    sleep, and the loop goes on to the fourth iteration. *)
Lemma loop_survives_faults_witness :
  is_active (connected_at_100, arbitrage_default) = true
  /\ never_stopped [calm 1000; calm 1001; faulty 1010; calm 1015] = true
  /\ status_of_run
       (TriangleArbitrageStrategy.execute
          [calm 1000; calm 1001; faulty 1010; calm 1015]
          (connected_at_100, arbitrage_default))
     = StillRunning
  /\ length
       (trace_of_run
          (TriangleArbitrageStrategy.execute
             [calm 1000; calm 1001; faulty 1010; calm 1015]
             (connected_at_100, arbitrage_default)))
     = 4%nat.
Proof.
  split; [reflexivity |]. split; [reflexivity |].
  apply (loop_survives_faults
           [calm 1000; calm 1001; faulty 1010; calm 1015]
           (connected_at_100, arbitrage_default)).
  - reflexivity.
  - reflexivity.
Defined.

(** ** What a computation emits *)

Section EmitsOnly.
Context {S : Type} (P : event -> bool).

Lemma emits_only_ret {A} (a : A) : emits_only (S := S) P (ret a).
Proof. intros s. reflexivity. Qed.

Lemma emits_only_get : emits_only (S := S) P get.
Proof. intros s. reflexivity. Qed.

Lemma emits_only_modify (g : S -> S) : emits_only P (modify g).
Proof. intros s. reflexivity. Qed.

Lemma emits_only_raise {A} (e : exn) : emits_only (S := S) P (raise (A := A) e).
Proof. intros s. reflexivity. Qed.

Lemma emits_only_answer {A} (o : outcome A) : emits_only (S := S) P (answer o).
Proof. intros s. reflexivity. Qed.

Lemma emits_only_emit (ev : event) : P ev = true -> emits_only (S := S) P (emit ev).
Proof. intros Hev s. cbn. rewrite Hev. reflexivity. Qed.

Lemma emits_only_call {A} (ev : event) (o : outcome A) :
  P ev = true -> emits_only (S := S) P (call ev o).
Proof. intros Hev s. cbn. rewrite Hev. reflexivity. Qed.

Lemma emits_only_bind {A B} (m : Py S A) (k : A -> Py S B) :
  emits_only P m -> (forall a, emits_only P (k a)) -> emits_only P (bind m k).
Proof.
  intros Hm Hk s. unfold bind, trace_of.
  specialize (Hm s). unfold trace_of in Hm.
  destruct (m s) as [[[a|e] s1] ev1]; cbn [fst snd] in *; [| exact Hm].
  specialize (Hk a s1). unfold trace_of in Hk.
  destruct (k a s1) as [[r s2] ev2]. cbn [fst snd] in *.
  rewrite forallb_app, Hm, Hk. reflexivity.
Qed.

Lemma emits_only_try_except {A} (m : Py S A) (h : exn -> Py S A) :
  emits_only P m -> (forall e, emits_only P (h e)) -> emits_only P (try_except m h).
Proof.
  intros Hm Hh s. unfold try_except, trace_of.
  specialize (Hm s). unfold trace_of in Hm.
  destruct (m s) as [[[a|e] s1] ev1]; cbn [fst snd] in *; [exact Hm |].
  specialize (Hh e s1). unfold trace_of in Hh.
  destruct (h e s1) as [[r s2] ev2]. cbn [fst snd] in *.
  rewrite forallb_app, Hm, Hh. reflexivity.
Qed.
End EmitsOnly.

Ltac quiet_step :=
  lazymatch goal with
  | |- emits_only _ (bind _ _) => apply emits_only_bind; [| intros ?]
  | |- emits_only _ (try_except _ _) => apply emits_only_try_except; [| intros ?]
  | |- emits_only _ (ret _) => apply emits_only_ret
  | |- emits_only _ get => apply emits_only_get
  | |- emits_only _ (modify _) => apply emits_only_modify
  | |- emits_only _ (raise _) => apply emits_only_raise
  | |- emits_only _ (answer _) => apply emits_only_answer
  | |- emits_only _ (logger _ _) => apply emits_only_emit; reflexivity
  | |- emits_only _ (logger_exception _) => apply emits_only_emit; reflexivity
  | |- emits_only _ (time_sleep _) => apply emits_only_emit; reflexivity
  | |- emits_only _ (emit _) => apply emits_only_emit; reflexivity
  | |- emits_only _ (call _ _) => apply emits_only_call; reflexivity
  | |- emits_only _ (if ?b then _ else _) => destruct b
  | |- emits_only _ (match ?x with _ => _ end) => destruct x
  end.

Ltac quiet := repeat quiet_step.

(** The health gate never invokes the decision logic. *)
Lemma health_check_not_decision (w : health_env) (self_name : string) :
  emits_only not_decision (health_check w self_name).
Proof.
  unfold health_check, ensure_connection, connect, connect_attempt,
    get_system_status, get_network_latency.
  quiet.
Qed.

Lemma decides_app (evs evs' : list event) :
  decides (evs ++ evs') = decides evs || decides evs'.
Proof. apply existsb_app. Qed.

Lemma not_decision_decides (evs : list event) :
  forallb not_decision evs = true -> decides evs = false.
Proof.
  induction evs as [|ev evs IH]; [reflexivity |].
  cbn [forallb decides existsb]. unfold not_decision at 1.
  intros Hall. apply andb_true_iff in Hall as [Hev Hrest].
  apply negb_true_iff in Hev. rewrite Hev. apply IH, Hrest.
Qed.

(** ** The cooldown *)

(** C2, as stated, fails for the SMC strategy: with a cooldown of 10
    seconds in its configuration, two iterations that start one second
    apart both invoke the decision logic. The loop has no cooldown check;
    each iteration opens with the health probe. *)
Lemma smc_decides_twice_within_cooldown :
  ~ (forall (ws : list iter_env) (st : MT5ConnectionManager * SMCStrategy.t) (c : Q),
        as_number (cooldown_seconds (SMCStrategy.base (snd st))) = Some c ->
        spaced_by c (decision_times (trace_of_run (SMCStrategy.execute ws st))) = true).
Proof.
  intros Hclaim.
  pose proof (Hclaim [calm 1000; calm 1001] (connected_at_100, smc_fast) 10%Q eq_refl)
    as Hspaced.
  vm_compute in Hspaced. discriminate.
Qed.

(** The two iterations of that run: each opens with the health probe and
    reaches the decision logic. *)
Lemma smc_iterations_probe_first :
  map emitted
      (trace_of_run
         (SMCStrategy.execute [calm 1000; calm 1001] (connected_at_100, smc_fast)))
  = [[GetSystemStatus; GetNetworkLatency;
      Mt5CopyRatesFromPos (PyStr "EURUSD") TIMEFRAME_M15 0 (PyInt 100);
      Log DEBUG "Updated market data cache"; DecisionLogic; Sleep 0];
     [GetSystemStatus; GetNetworkLatency; DecisionLogic; Sleep 0]].
Proof. vm_compute. reflexivity. Qed.

(** The cooldown gate holds of every single iteration of the arbitrage
    loop. *)
Lemma arbitrage_iteration_cooldown_gate
  (w : iter_env) (st : MT5ConnectionManager * TriangleArbitrageStrategy.t) :
  cooldown_gate {| seen := st; world := w; emitted := trace_of (iteration w st) |}.
Proof.
  destruct st as [mgr self].
  unfold cooldown_gate. cbn [seen world emitted snd].
  unfold iteration, try_except, trace_of.
  cbn [try_body TriangleArbitrageStrategy.strategy].
  unfold TriangleArbitrageStrategy.body, TriangleArbitrageStrategy.in_cooldown,
    bind, get. cbn [fst snd].
  destruct (as_number (TriangleArbitrageStrategy.cooldown self)) as [c|].
  - unfold ret. cbn [fst snd].
    destruct (Qlt_bool (now w - TriangleArbitrageStrategy.last_trade_time self) c) eqn:E.
    + reflexivity.
    + apply Qlt_bool_false. exact E.
  - reflexivity.
Qed.

(** An iteration inside the cooldown consults no health gate and takes no
    decision. *)
Lemma cooldown_gate_inside (it : iteration_record TriangleArbitrageStrategy.t) (c : Q) :
  cooldown_gate it ->
  as_number (TriangleArbitrageStrategy.cooldown (snd (seen it))) = Some c ->
  (now (world it) - TriangleArbitrageStrategy.last_trade_time (snd (seen it)) < c)%Q ->
  probes (emitted it) = false /\ decides (emitted it) = false.
Proof.
  unfold cooldown_gate. intros Hgate Hc Hlt. cbv zeta in Hgate.
  rewrite Hc in Hgate. apply Qlt_bool_true in Hlt. rewrite Hlt in Hgate.
  rewrite Hgate. split; reflexivity.
Qed.

(** An iteration that reaches the decision logic does so with the cooldown
    elapsed. *)
Lemma cooldown_gate_decides (it : iteration_record TriangleArbitrageStrategy.t) :
  cooldown_gate it ->
  decides (emitted it) = true ->
  exists c,
    as_number (TriangleArbitrageStrategy.cooldown (snd (seen it))) = Some c
    /\ (c <= now (world it)
             - TriangleArbitrageStrategy.last_trade_time (snd (seen it)))%Q.
Proof.
  unfold cooldown_gate. intros Hgate Hdec. cbv zeta in Hgate.
  destruct (as_number (TriangleArbitrageStrategy.cooldown (snd (seen it)))) as [c|];
    [| congruence].
  exists c. split; [reflexivity |].
  destruct (Qlt_bool _ c); [| exact Hgate].
  rewrite Hgate in Hdec. discriminate.
Qed.

(** What one iteration of the arbitrage loop does to the object: the
    cooldown stays, [last_trade_time] stays or becomes the reading taken
    after the trade, and it becomes that reading whenever the decision
    logic was invoked and returned. *)
Lemma arbitrage_iteration_stamp
  (w : iter_env) (st : MT5ConnectionManager * TriangleArbitrageStrategy.t) :
  let r := iteration w st in
  TriangleArbitrageStrategy.cooldown (snd (state_of r))
  = TriangleArbitrageStrategy.cooldown (snd st)
  /\ (TriangleArbitrageStrategy.last_trade_time (snd (state_of r))
      = TriangleArbitrageStrategy.last_trade_time (snd st)
      \/ TriangleArbitrageStrategy.last_trade_time (snd (state_of r)) = now_after w)
  /\ (decides (trace_of r) = true ->
      is_returns (decision_logic w) = true ->
      TriangleArbitrageStrategy.last_trade_time (snd (state_of r)) = now_after w).
Proof.
  destruct st as [mgr self]. cbv zeta.
  unfold iteration, try_except, state_of, trace_of.
  cbn [try_body TriangleArbitrageStrategy.strategy].
  unfold TriangleArbitrageStrategy.body, TriangleArbitrageStrategy.in_cooldown,
    bind, get. cbn [fst snd].
  destruct (as_number (TriangleArbitrageStrategy.cooldown self)) as [c|];
    [| cbn; split; [reflexivity | split; [left; reflexivity | discriminate]]].
  unfold ret. cbn [fst snd].
  destruct (Qlt_bool (now w - TriangleArbitrageStrategy.last_trade_time self) c);
    [cbn; split; [reflexivity | split; [left; reflexivity | discriminate]] |].
  unfold on_fst. cbn [fst snd].
  pose proof (health_check_not_decision (health w)
                (name (TriangleArbitrageStrategy.base self)) mgr) as Hquiet.
  unfold trace_of in Hquiet. apply not_decision_decides in Hquiet.
  destruct (health_check (health w) (name (TriangleArbitrageStrategy.base self)) mgr)
    as [[[healthy_now|e] mgr'] evs]; cbn [fst snd] in *.
  - destruct healthy_now; cbn [negb].
    + unfold call, on_snd, modify. cbn [fst snd].
      destruct (decision_logic w) as [[]|e]; cbn [fst snd is_returns].
      * split; [reflexivity | split; [right; reflexivity | reflexivity]].
      * split; [reflexivity | split; [left; reflexivity | discriminate]].
    + unfold time_sleep, emit. cbn [fst snd].
      split; [reflexivity | split; [left; reflexivity |]].
      cbn [app]. rewrite decides_app, Hquiet. discriminate.
  - unfold logger_exception, time_sleep, emit. cbn [fst snd].
    split; [reflexivity | split; [left; reflexivity |]].
    cbn [app]. rewrite decides_app, Hquiet. discriminate.
Qed.

Lemma observe_stop_arbitrage
  (w : iter_env) (st : MT5ConnectionManager * TriangleArbitrageStrategy.t) :
  TriangleArbitrageStrategy.last_trade_time (snd (observe_stop w st))
  = TriangleArbitrageStrategy.last_trade_time (snd st).
Proof. unfold observe_stop. destruct (stop_requested w); reflexivity. Qed.

(** Along a run [last_trade_time] never falls below a bound that it and
    all later readings of the clock respect. *)
Lemma arbitrage_last_trade_time_bound (L : Q) (ws : list iter_env) :
  forall st : MT5ConnectionManager * TriangleArbitrageStrategy.t,
    (L <= TriangleArbitrageStrategy.last_trade_time (snd st))%Q ->
    Forall (fun w => (L <= now_after w)%Q) ws ->
    Forall (fun it => (L <= TriangleArbitrageStrategy.last_trade_time (snd (seen it)))%Q)
           (trace_of_run (run_loop ws st)).
Proof.
  induction ws as [|w ws IH]; intros st HL Hws; cbn [run_loop].
  - destruct (is_active st); constructor.
  - destruct (is_active st); [| constructor].
    inversion Hws as [|w0 ws0 Hw Hrest]; subst.
    destruct (arbitrage_iteration_stamp w st) as (_ & Hstamp & _).
    unfold state_of in Hstamp.
    destruct (iteration w st) as [[[[]|e] st1] evs]; cbn [fst snd] in Hstamp.
    + assert (HL1 : (L <= TriangleArbitrageStrategy.last_trade_time
                            (snd (observe_stop w st1)))%Q).
      { rewrite observe_stop_arbitrage. destruct Hstamp as [-> | ->]; assumption. }
      specialize (IH (observe_stop w st1) HL1 Hrest).
      destruct (run_loop ws (observe_stop w st1)) as [[status st'] rest].
      constructor; [exact HL | exact IH].
    + constructor; [exact HL | constructor].
Qed.

Lemma clock_monotone_each (ws : list iter_env) :
  clock_monotone ws = true -> Forall (fun w => (now w <= now_after w)%Q) ws.
Proof.
  induction ws as [|w ws IH]; intros Hmono; [constructor |].
  cbn [clock_monotone] in Hmono.
  apply andb_true_iff in Hmono as [Hmono Hrest].
  apply andb_true_iff in Hmono as [Hw _].
  constructor; [apply Qle_bool_iff, Hw | apply IH, Hrest].
Qed.

(** With a monotone clock, every later iteration ends no earlier than an
    earlier one. *)
Lemma clock_monotone_later (w : iter_env) (ws : list iter_env) :
  clock_monotone (w :: ws) = true ->
  Forall (fun w' => (now_after w <= now_after w')%Q) ws.
Proof.
  intros Hmono. cbn [clock_monotone] in Hmono.
  apply andb_true_iff in Hmono as [Hmono Hrest].
  apply andb_true_iff in Hmono as [_ Hlater].
  apply clock_monotone_each in Hrest.
  rewrite forallb_forall in Hlater.
  rewrite List.Forall_forall in *. intros w' Hin.
  specialize (Hlater w' Hin). apply Qle_bool_iff in Hlater.
  specialize (Hrest w' Hin). cbv beta in Hrest. lra.
Qed.

(** With a monotone clock, a completed decision keeps the decision logic
    away for the length of the cooldown. *)
Lemma arbitrage_decisions_spaced (ws : list iter_env) :
  forall st : MT5ConnectionManager * TriangleArbitrageStrategy.t,
    clock_monotone ws = true ->
    ForallOrdPairs cooldown_between
      (trace_of_run (TriangleArbitrageStrategy.execute ws st)).
Proof.
  unfold TriangleArbitrageStrategy.execute.
  induction ws as [|w ws IH]; intros st Hmono; cbn [run_loop].
  - destruct (is_active st); constructor.
  - destruct (is_active st); [| constructor].
    pose proof (clock_monotone_later w ws Hmono) as Hlater.
    assert (Hmono' : clock_monotone ws = true).
    { cbn [clock_monotone] in Hmono. apply andb_true_iff in Hmono as [_ Hrest].
      exact Hrest. }
    destruct (arbitrage_iteration_stamp w st) as (_ & _ & Hstamp).
    unfold state_of, trace_of in Hstamp.
    destruct (iteration w st) as [[[[]|e] st1] evs]; cbn [fst snd] in Hstamp;
      [| constructor; constructor].
    pose proof (run_loop_Forall cooldown_gate arbitrage_iteration_cooldown_gate
                  ws (observe_stop w st1)) as Hgate.
    pose proof (fun HL => arbitrage_last_trade_time_bound (now_after w) ws
                            (observe_stop w st1) HL Hlater) as Hbound.
    specialize (IH (observe_stop w st1) Hmono').
    destruct (run_loop ws (observe_stop w st1)) as [[status st'] rest].
    cbn [trace_of_run snd] in *.
    constructor; [| exact IH].
    rewrite List.Forall_forall. intros later Hin Hcompleted Hdecides.
    unfold completed in Hcompleted. cbn [emitted world] in Hcompleted.
    apply andb_true_iff in Hcompleted as [Hdec Hret].
    specialize (Hstamp Hdec Hret).
    rewrite observe_stop_arbitrage, Hstamp in Hbound.
    specialize (Hbound (Qle_refl _)).
    rewrite List.Forall_forall in Hgate, Hbound.
    destruct (cooldown_gate_decides later (Hgate later Hin) Hdecides)
      as (c & Hc & Hle).
    exists c. split; [exact Hc |].
    specialize (Hbound later Hin). cbv beta in Hbound.
    cbn [world]. lra.
Qed.

(** C2, amended: in every run of the TriangleArbitrageStrategy loop, every
    iteration first compares the time since [last_trade_time] with the
    cooldown. Inside the cooldown the iteration consists of the 0.1 s
    sleep alone: no health probe, no decision. The decision logic is
    reached only when the cooldown has elapsed since [last_trade_time]
    (and never when the cooldown is not a number); so, with a clock that
    does not run backwards, once an invocation of the decision logic has
    completed, no later iteration invokes it before the cooldown has
    passed. *)
Theorem arbitrage_cooldown_first
  (ws : list iter_env) (st : MT5ConnectionManager * TriangleArbitrageStrategy.t) :
  Forall cooldown_gate (trace_of_run (TriangleArbitrageStrategy.execute ws st))
  /\ (clock_monotone ws = true ->
      ForallOrdPairs cooldown_between
        (trace_of_run (TriangleArbitrageStrategy.execute ws st))).
Proof.
  split.
  - unfold TriangleArbitrageStrategy.execute.
    apply run_loop_Forall. apply arbitrage_iteration_cooldown_gate.
  - apply arbitrage_decisions_spaced.
Qed.

Lemma arbitrage_cooldown_first_witness :
  clock_monotone [calm 1000; calm 1003; calm 1012] = true
  /\ ForallOrdPairs cooldown_between
       (trace_of_run
          (TriangleArbitrageStrategy.execute [calm 1000; calm 1003; calm 1012]
             (connected_at_100, arbitrage_default))).
Proof.
  split; [reflexivity |].
  apply (arbitrage_cooldown_first [calm 1000; calm 1003; calm 1012]
           (connected_at_100, arbitrage_default)).
  reflexivity.
Defined.

(** The scenario of the spec: cooldown 10 s, last trade at 1000, the loop
    evaluated 3 seconds later sleeps and does nothing else. *)
Lemma arbitrage_inside_cooldown_sleeps :
  map emitted
      (trace_of_run
         (TriangleArbitrageStrategy.execute [calm 1000; calm 1003]
            (connected_at_100, arbitrage_default)))
  = [[GetSystemStatus; GetNetworkLatency; DecisionLogic]; [Sleep (1 # 10)]].
Proof. vm_compute. reflexivity. Qed.

(** ** What an iteration may touch *)

Section ChangesOnlyBy.
Context {S X : Type} (f : S -> X) (g : X -> X).

Lemma preserves_changes {A} (m : Py S A) :
  preserves f m -> changes_only_by f g m.
Proof. intros Hm s. left. apply Hm. Qed.

(** A change at the head of a sequence, followed by steps that keep the
    observation. *)
Lemma changes_then_preserves {A B} (m : Py S A) (k : A -> Py S B) :
  changes_only_by f g m -> (forall a, preserves f (k a)) ->
  changes_only_by f g (bind m k).
Proof.
  intros Hm Hk s. unfold bind, state_of.
  specialize (Hm s). unfold state_of in Hm.
  destruct (m s) as [[[a|e] s1] ev1]; cbn [fst snd] in *; [| exact Hm].
  specialize (Hk a s1). unfold state_of in Hk.
  destruct (k a s1) as [[r s2] ev2]. cbn [fst snd] in *.
  rewrite Hk. exact Hm.
Qed.

(** Steps that keep the observation, followed by a change. *)
Lemma preserves_then_changes {A B} (m : Py S A) (k : A -> Py S B) :
  preserves f m -> (forall a, changes_only_by f g (k a)) ->
  changes_only_by f g (bind m k).
Proof.
  intros Hm Hk s. unfold bind, state_of.
  specialize (Hm s). unfold state_of in Hm.
  destruct (m s) as [[[a|e] s1] ev1]; cbn [fst snd] in *; [| left; exact Hm].
  specialize (Hk a s1). unfold state_of in Hk.
  destruct (k a s1) as [[r s2] ev2]. cbn [fst snd] in *.
  rewrite <- Hm. exact Hk.
Qed.

Lemma changes_try_except {A} (m : Py S A) (h : exn -> Py S A) :
  changes_only_by f g m -> (forall e, preserves f (h e)) ->
  changes_only_by f g (try_except m h).
Proof.
  intros Hm Hh s. unfold try_except, state_of.
  specialize (Hm s). unfold state_of in Hm.
  destruct (m s) as [[[a|e] s1] ev1]; cbn [fst snd] in *; [exact Hm |].
  specialize (Hh e s1). unfold state_of in Hh.
  destruct (h e s1) as [[r s2] ev2]. cbn [fst snd] in *.
  rewrite Hh. exact Hm.
Qed.
End ChangesOnlyBy.

(** [health_check] touches the manager through [ensure_connection] and
    nothing else. *)
Lemma health_check_manager (w : health_env) (self_name : string)
  (mgr : MT5ConnectionManager) :
  state_of (health_check w self_name mgr) = after_ensure_connection (connection w) mgr.
Proof.
  unfold after_ensure_connection, health_check, state_of.
  unfold bind at 1.
  destruct (ensure_connection (connection w) mgr) as [[[ok|e] mgr'] evs];
    cbn [fst snd]; [| reflexivity].
  destruct ok; cbn [negb].
  - unfold get_system_status, get_network_latency, bind, call, logger, emit, ret.
    destruct (system_status w) as [status|e]; cbn [fst snd]; [| reflexivity].
    destruct (Qlt_bool 90 (cpu status)); [reflexivity |].
    destruct (Qlt_bool 90 (memory_percent status)); [reflexivity |].
    destruct (xfloat_gt (network_latency w) 100); reflexivity.
  - reflexivity.
Qed.

(** [ensure_connection] leaves the manager alone or runs [connect]. *)
Lemma ensure_connection_manager (cw : connect_env) (mgr : MT5ConnectionManager) :
  after_ensure_connection cw mgr = mgr
  \/ after_ensure_connection cw mgr = state_of (connect cw mgr).
Proof.
  unfold after_ensure_connection, ensure_connection, state_of, bind, get.
  cbn [fst snd]. destruct (connected mgr).
  - left. reflexivity.
  - right. destruct (connect cw mgr) as [[r mgr'] evs]. reflexivity.
Qed.

Lemma health_check_changes_manager {S2} (w : health_env) (self_name : string) :
  changes_only_by (fun st : MT5ConnectionManager * S2 => fst st)
    (after_ensure_connection (connection w))
    (on_fst (health_check w self_name)).
Proof.
  intros st. right. unfold on_fst, state_of.
  pose proof (health_check_manager w self_name (fst st)) as Hm.
  unfold state_of in Hm.
  destruct (health_check w self_name (fst st)) as [[r mgr'] evs].
  exact Hm.
Qed.

Lemma arbitrage_body_manager (w : iter_env) :
  changes_only_by (fun st => fst st)
    (after_ensure_connection (connection (health w)))
    (TriangleArbitrageStrategy.body w).
Proof.
  unfold TriangleArbitrageStrategy.body.
  apply preserves_then_changes; [apply preserves_get | intros st].
  apply preserves_then_changes;
    [unfold TriangleArbitrageStrategy.in_cooldown; frame | intros wait].
  destruct wait; [apply preserves_changes; frame |].
  apply changes_then_preserves; [apply health_check_changes_manager |].
  intros healthy_now. frame.
Qed.

Lemma smc_body_manager (w : iter_env) :
  changes_only_by (fun st => fst st)
    (after_ensure_connection (connection (health w)))
    (SMCStrategy.body w).
Proof.
  unfold SMCStrategy.body.
  apply preserves_then_changes; [apply preserves_get | intros st].
  apply changes_then_preserves; [apply health_check_changes_manager |].
  intros healthy_now. frame.
Qed.

Lemma breakout_body_manager (w : iter_env) :
  changes_only_by (fun st => fst st)
    (after_ensure_connection (connection (health w)))
    (BreakoutStrategy.body w).
Proof.
  unfold BreakoutStrategy.body.
  apply preserves_then_changes; [apply preserves_get | intros st].
  apply changes_then_preserves; [apply health_check_changes_manager |].
  intros healthy_now. frame.
Qed.

(** The handler of the loop does not touch the manager. *)
Lemma iteration_manager {T} `{Strategy T} (g : MT5ConnectionManager -> MT5ConnectionManager)
  (w : iter_env) :
  changes_only_by (fun st : MT5ConnectionManager * T => fst st) g (try_body w) ->
  changes_only_by (fun st : MT5ConnectionManager * T => fst st) g (iteration w).
Proof.
  intros Hbody. unfold iteration.
  apply changes_try_except; [exact Hbody | intros e; frame].
Qed.

(** Whatever its class, one iteration of a strategy object leaves the
    shared manager alone or runs [ensure_connection] on it once. *)
Lemma iterate_manager (w : iter_env) (mgr : MT5ConnectionManager) (s : strategy) :
  fst (state_of (iterate w (mgr, s))) = mgr
  \/ fst (state_of (iterate w (mgr, s)))
     = after_ensure_connection (connection (health w)) mgr.
Proof.
  unfold iterate. cbn [fst snd].
  destruct s as [a|a|a].
  - pose proof (@iteration_manager _ TriangleArbitrageStrategy.strategy _ w (arbitrage_body_manager w) (mgr, a)) as Hc.
    unfold state_of in *.
    destruct (iteration w (mgr, a)) as [[r [m a']] evs]. exact Hc.
  - pose proof (@iteration_manager _ SMCStrategy.strategy _ w (smc_body_manager w) (mgr, a)) as Hc.
    unfold state_of in *.
    destruct (iteration w (mgr, a)) as [[r [m a']] evs]. exact Hc.
  - pose proof (@iteration_manager _ BreakoutStrategy.strategy _ w (breakout_body_manager w) (mgr, a)) as Hc.
    unfold state_of in *.
    destruct (iteration w (mgr, a)) as [[r [m a']] evs]. exact Hc.
Qed.

(** ** Isolation of the runtimes *)

(** C9: an iteration of the runtime [a], whatever happens in it (a fault
    of the decision logic included), leaves the object of every other
    runtime [b] exactly as it was, with its configuration, running flag,
    execution time and cache; the only shared state, the connection
    manager, is left alone or goes through [connect] once. *)
Theorem fault_leaves_other_runtimes
  (a b : string) (w : iter_env) (p : Process) :
  a <> b ->
  runtimes (fst (step a w p)) !! b = runtimes p !! b
  /\ (mt5_instance (fst (step a w p)) = mt5_instance p
      \/ mt5_instance (fst (step a w p))
         = state_of (connect (connection (health w)) (mt5_instance p))).
Proof.
  intros Hab. unfold step.
  destruct (runtimes p !! a) as [s|] eqn:Hs; [| split; [reflexivity | left; reflexivity]].
  destruct (active (base_of s)); [| split; [reflexivity | left; reflexivity]].
  pose proof (iterate_manager w (mt5_instance p) s) as Hmgr.
  unfold state_of in Hmgr.
  destruct (iterate w (mt5_instance p, s)) as [[r [m s']] evs].
  cbn [fst snd mt5_instance runtimes] in *.
  split.
  - apply lookup_insert_ne. exact Hab.
  - destruct Hmgr as [-> | ->]; [left; reflexivity |].
    apply ensure_connection_manager.
Qed.

(** The decision logic of the arbitrage runtime fails while the SMC
    runtime exists beside it. *)
Lemma fault_leaves_other_runtimes_witness :
  "arbitrage" <> "smc"
  /\ decision_logic (faulty 1010) = Raises (Exception "ValueError")
  /\ runtimes (fst (step "arbitrage" (faulty 1010) two_runtimes)) !! "smc"
     = runtimes two_runtimes !! "smc"
  /\ (mt5_instance (fst (step "arbitrage" (faulty 1010) two_runtimes))
      = mt5_instance two_runtimes
      \/ mt5_instance (fst (step "arbitrage" (faulty 1010) two_runtimes))
         = state_of (connect (connection (health (faulty 1010)))
                       (mt5_instance two_runtimes))).
Proof.
  split; [discriminate |]. split; [reflexivity |].
  apply (fault_leaves_other_runtimes "arbitrage" "smc" (faulty 1010) two_runtimes).
  discriminate.
Defined.

(** In that iteration the failing runtime itself only logs and backs off;
    its own [last_trade_time] stays where it was. *)
Lemma arbitrage_fault_keeps_last_trade_time :
  step "arbitrage" (faulty 1010) two_runtimes
  = (two_runtimes,
     [GetSystemStatus; GetNetworkLatency; DecisionLogic;
      Log ERROR "Arbitrage strategy error"; Sleep 5]).
Proof.
  vm_compute. reflexivity.
Qed.

(** ** Starting a strategy *)

(** [TradingStrategy.start] on an object that is already active changes
    nothing in it. *)
Lemma start_active_unchanged (self : TradingStrategy) :
  active self = true -> state_of (start self) = self.
Proof.
  intros Hact. destruct self as [c a l n]. cbn in Hact. subst a. reflexivity.
Qed.

(** C3: starting an identifier whose runtime is registered and Running
    does nothing: the manager is unchanged, no event is produced, so no
    second loop is spawned; and [TradingStrategy.start] itself leaves an
    active object as it is. The registry, a dictionary, holds at most one
    runtime under the identifier. *)
Theorem start_strategy_running_is_noop
  (id : string) (cfg : gmap string py_value) (m : StrategyManager) (s : strategy) :
  active_strategies m !! id = Some s ->
  active (base_of s) = true ->
  start_strategy id cfg m = (Returns tt, m, [])
  /\ spawned (trace_of (start_strategy id cfg m)) = 0%nat
  /\ active_strategies (state_of (start_strategy id cfg m)) !! id = Some s
  /\ state_of (start (base_of s)) = base_of s.
Proof.
  intros Hreg Hact.
  assert (Hrun : start_strategy id cfg m = (Returns tt, m, [])).
  { unfold start_strategy, already_running, bind, get. cbn [fst snd].
    rewrite Hreg, Hact. reflexivity. }
  rewrite Hrun. cbn [trace_of state_of fst snd].
  repeat split; [exact Hreg | apply start_active_unchanged, Hact].
Qed.

Lemma start_strategy_running_is_noop_witness :
  active_strategies arbitrage_started !! "arbitrage" = Some (Arbitrage arbitrage_default)
  /\ active (base_of (Arbitrage arbitrage_default)) = true
  /\ start_strategy "arbitrage" ∅ arbitrage_started = (Returns tt, arbitrage_started, [])
  /\ spawned (trace_of (start_strategy "arbitrage" ∅ arbitrage_started)) = 0%nat
  /\ active_strategies (state_of (start_strategy "arbitrage" ∅ arbitrage_started))
       !! "arbitrage"
     = Some (Arbitrage arbitrage_default)
  /\ state_of (start (base_of (Arbitrage arbitrage_default)))
     = base_of (Arbitrage arbitrage_default).
Proof.
  split; [vm_compute; reflexivity |]. split; [reflexivity |].
  apply (start_strategy_running_is_noop "arbitrage" ∅ arbitrage_started
           (Arbitrage arbitrage_default)).
  - vm_compute. reflexivity.
  - reflexivity.
Defined.

Lemma base_of_with_base_of (b : TradingStrategy) (s : strategy) :
  base_of (with_base_of b s) = b.
Proof. destruct s; reflexivity. Qed.

Lemma spawned_app (evs evs' : list event) :
  spawned (evs ++ evs') = (spawned evs + spawned evs')%nat.
Proof. unfold spawned. rewrite List.filter_app, length_app. reflexivity. Qed.

(** A call of [start_strategy] either does nothing, or registers a Running
    runtime under the identifier and spawns exactly one loop. *)
Lemma start_strategy_effect (id : string) (cfg : gmap string py_value)
  (m : StrategyManager) :
  start_strategy id cfg m = (Returns tt, m, [])
  \/ already_running id (state_of (start_strategy id cfg m)) = true
     /\ spawned (trace_of (start_strategy id cfg m)) = 1%nat.
Proof.
  unfold start_strategy, bind, get. cbn [fst snd].
  destruct (already_running id m); [left; reflexivity |].
  unfold launch.
  destruct (strategies !! id) as [cls|]; [right | left; reflexivity].
  unfold start, bind, modify, get, logger, emit.
  cbn [state_of trace_of fst snd app].
  unfold already_running.
  cbn [active_strategies set_active_strategies].
  rewrite lookup_insert_eq, base_of_with_base_of. split; reflexivity.
Qed.

(** Once the runtime is Running, any number of further starts does
    nothing. *)
Lemma start_repeatedly_running (id : string) (cfgs : list (gmap string py_value)) :
  forall m, already_running id m = true -> start_repeatedly id cfgs m = (m, []).
Proof.
  induction cfgs as [|cfg rest IH]; intros m Hrun; [reflexivity |].
  cbn [start_repeatedly].
  unfold start_strategy, bind, get. cbn [fst snd]. rewrite Hrun.
  cbn. rewrite (IH m Hrun). reflexivity.
Qed.

(** However often an identifier is started in a row, at most one loop is
    spawned for it. *)
Lemma start_repeatedly_spawns_at_most_once
  (id : string) (cfgs : list (gmap string py_value)) :
  forall m, (spawned (snd (start_repeatedly id cfgs m)) <= 1)%nat.
Proof.
  induction cfgs as [|cfg rest IH]; intros m; [cbn; lia |].
  cbn [start_repeatedly].
  destruct (start_strategy_effect id cfg m) as [Hnoop | [Hrun Hone]].
  - rewrite Hnoop. specialize (IH m).
    destruct (start_repeatedly id rest m) as [m2 evs']. exact IH.
  - unfold state_of, trace_of in *.
    destruct (start_strategy id cfg m) as [[r m1] evs]. cbn [fst snd] in *.
    rewrite (start_repeatedly_running id rest m1 Hrun).
    cbn [snd]. rewrite app_nil_r. lia.
Qed.

(** A stopped identifier is no longer registered, so a later start creates
    a fresh runtime. *)
Lemma stop_strategy_unregisters (id : string) (m : StrategyManager) :
  already_running id (state_of (stop_strategy id m)) = false.
Proof.
  unfold stop_strategy, already_running, state_of, bind, get, modify.
  cbn [fst snd].
  destruct (active_strategies m !! id) as [s|] eqn:Hreg.
  - unfold stop, bind, modify, get, logger, emit. cbn [fst snd].
    cbn [active_strategies set_active_strategies].
    rewrite lookup_delete_eq. reflexivity.
  - cbn [ret fst snd]. rewrite Hreg. reflexivity.
Qed.

(* ================================================================= *)
(** * Further properties of the code *)

(** ** The connection manager *)

Lemma attempt_times_from (ws : list connect_env) :
  forall self,
    match attempt_times ws self with
    | [] => True
    | t :: _ => (5 <= t - last_connection_attempt self)%Q
    end
    /\ spaced_by 5 (attempt_times ws self) = true.
Proof.
  induction ws as [|w ws IH]; intros self; cbn [attempt_times]; [split; [exact I | reflexivity] |].
  destruct (Qlt_bool (time_time w - last_connection_attempt self) 5) eqn:E.
  - rewrite (connect_throttled _ _ E). cbn [attempted existsb app]. apply IH.
  - destruct (connect_not_throttled _ _ E) as (b & self' & evs & -> & _ & Hlast).
    cbn [attempted existsb is_attempt orb app].
    destruct (IH self') as [Hhead Hspaced].
    split; [apply Qlt_bool_false, E |].
    destruct (attempt_times ws self') as [|t rest]; [reflexivity |].
    cbn [spaced_by] in *. rewrite Hspaced, andb_true_r.
    apply Qle_bool_iff. rewrite Hlast in Hhead. exact Hhead.
Qed.

(** X1: whatever the times and the outcomes of a sequence of [connect]
    calls, two successive real attempts are at least 5 seconds apart, and
    the first one comes at least 5 seconds after the attempt recorded in
    the manager. *)
Theorem connect_attempts_spaced (ws : list connect_env) (self : MT5ConnectionManager) :
  spaced_by 5 (attempt_times ws self) = true
  /\ match attempt_times ws self with
     | [] => True
     | t :: _ => (5 <= t - last_connection_attempt self)%Q
     end.
Proof.
  destruct (attempt_times_from ws self) as [Hhead Hspaced]. split; assumption.
Qed.

(** X2: [connect], [ensure_connection] and [reconnect] never raise, and
    what they return is the [connected] flag they leave in the manager. *)
Theorem connection_result_is_flag (w : connect_env) (self : MT5ConnectionManager) :
  result_of (connect w self) = Returns (connected (state_of (connect w self)))
  /\ result_of (ensure_connection w self)
     = Returns (connected (state_of (ensure_connection w self)))
  /\ result_of (reconnect w self) = Returns (connected (state_of (reconnect w self))).
Proof.
  assert (Hconnect : forall s,
             result_of (connect w s) = Returns (connected (state_of (connect w s)))).
  { intros s.
    destruct (Qlt_bool (time_time w - last_connection_attempt s) 5) eqn:E.
    - rewrite (connect_throttled _ _ E). reflexivity.
    - destruct (connect_result _ _ E) as [-> ->]. reflexivity. }
  split; [apply Hconnect | split].
  - unfold ensure_connection, bind, get. cbn [fst snd].
    destruct (connected self) eqn:Hc.
    + cbn. rewrite Hc. reflexivity.
    + specialize (Hconnect self). unfold result_of, state_of in *.
      destruct (connect w self) as [[r s'] evs]. exact Hconnect.
  - unfold reconnect, bind, modify. cbn [fst snd].
    specialize (Hconnect (set_connected false self)).
    unfold result_of, state_of in *.
    destruct (connect w (set_connected false self)) as [[r s'] evs]. exact Hconnect.
Qed.

(** X3: when a real attempt fails because [mt5.initialize()] or
    [mt5.login(...)] returns false, [connect] asks for the error, shuts the
    session down, leaves the manager disconnected with the attempt time
    recorded, and returns False, also when [mt5.shutdown()] itself raises. *)
Theorem connect_refused_releases_session (w : connect_env) (self : MT5ConnectionManager) :
  Qlt_bool (time_time w - last_connection_attempt self) 5 = false ->
  fails_by_return w = true ->
  mt5_last_error w = Returns tt ->
  existsb is_shutdown (trace_of (connect w self)) = true
  /\ result_of (connect w self) = Returns false
  /\ connected (state_of (connect w self)) = false
  /\ last_connection_attempt (state_of (connect w self)) = time_time w.
Proof.
  intros Hthr Hfail Herr.
  split; [apply connect_false_return_shuts_down; assumption |].
  destruct (connect_result _ _ Hthr) as [Hres Hflag].
  assert (Hno : terminal_accepts w = false).
  { unfold terminal_accepts, fails_by_return in *.
    destruct (mt5_initialize w) as [[|]|e]; try discriminate;
      destruct (mt5_login w) as [[|]|e]; try discriminate; reflexivity. }
  rewrite Hres, Hflag, Hno. split; [reflexivity | split; [reflexivity |]].
  destruct (connect_not_throttled _ _ Hthr) as (b & self' & evs & Heq & _ & Hlast).
  rewrite Heq. exact Hlast.
Qed.

Lemma connect_refused_releases_session_witness :
  existsb is_shutdown (trace_of (connect (login_refused 100) initialize)) = true
  /\ result_of (connect (login_refused 100) initialize) = Returns false
  /\ connected (state_of (connect (login_refused 100) initialize)) = false
  /\ last_connection_attempt (state_of (connect (login_refused 100) initialize))
     = time_time (login_refused 100).
Proof.
  apply (connect_refused_releases_session (login_refused 100) initialize).
  - reflexivity.
  - reflexivity.
  - reflexivity.
Defined.

(** X4: the [connection_interval] field (60, "seconds between connection
    attempts") is never read: [connect] behaves the same whatever it
    holds, and hands it on unchanged. The throttle is the literal 5. *)
Theorem connect_ignores_connection_interval
  (q : Q) (w : connect_env) (self : MT5ConnectionManager) :
  connect w (set_connection_interval q self)
  = (result_of (connect w self),
     set_connection_interval q (state_of (connect w self)),
     trace_of (connect w self)).
Proof.
  unfold result_of, state_of, trace_of.
  unfold connect, bind, get, ret. cbn [fst snd last_connection_attempt
    set_connection_interval connected].
  destruct (Qlt_bool (time_time w - last_connection_attempt self) 5);
    [reflexivity |].
  run_py.
  destruct (mt5_initialize w) as [[|]|e];
    [destruct (mt5_login w) as [[|]|e] | |]; cbn; try reflexivity;
    destruct (mt5_last_error w) as [[]|e]; cbn; try reflexivity;
    destruct (mt5_shutdown w) as [[]|e]; cbn; reflexivity.
Qed.

(** X5: once the manager holds [connected = True], no iteration of any
    strategy loop, in any order and whatever the environment answers,
    changes the manager: the loops never look at the terminal session
    again, so the flag stays True. *)
Theorem connected_manager_frozen (schedule : list (string * iter_env)) :
  forall p : Process,
    connected (mt5_instance p) = true ->
    mt5_instance (run_schedule schedule p) = mt5_instance p.
Proof.
  induction schedule as [|[id w] rest IH]; intros p Hconn; [reflexivity |].
  cbn [run_schedule].
  assert (Hstep : mt5_instance (fst (step id w p)) = mt5_instance p).
  { unfold step.
    destruct (runtimes p !! id) as [s|]; [| reflexivity].
    destruct (active (base_of s)); [| reflexivity].
    pose proof (iterate_manager w (mt5_instance p) s) as Hmgr.
    unfold state_of in Hmgr.
    destruct (iterate w (mt5_instance p, s)) as [[r [m s']] evs].
    cbn [fst snd mt5_instance] in *.
    destruct Hmgr as [-> | ->]; [reflexivity |].
    unfold after_ensure_connection, ensure_connection, state_of, bind, get.
    cbn [fst snd]. rewrite Hconn. reflexivity. }
  rewrite IH; rewrite Hstep; [reflexivity | exact Hconn].
Qed.

Lemma connected_manager_frozen_witness :
  connected (mt5_instance two_runtimes) = true
  /\ mt5_instance
       (run_schedule [("arbitrage", calm 1000); ("smc", faulty 1001);
                      ("arbitrage", faulty 1010)] two_runtimes)
     = mt5_instance two_runtimes.
Proof.
  split; [reflexivity |].
  apply (connected_manager_frozen
           [("arbitrage", calm 1000); ("smc", faulty 1001); ("arbitrage", faulty 1010)]
           two_runtimes).
  reflexivity.
Defined.

(** ** The health gate *)

(** The four conditions under which the health gate opens. *)
Lemma health_check_passes
  (w : health_env) (self_name : string) (mgr : MT5ConnectionManager) :
  result_of (health_check w self_name mgr) = Returns true
  <->
  result_of (ensure_connection (connection w) mgr) = Returns true
  /\ exists status latency,
       system_status w = Returns status
       /\ network_latency w = Finite latency
       /\ (cpu status <= 90)%Q
       /\ (memory_percent status <= 90)%Q
       /\ (latency <= 100)%Q.
Proof.
  unfold health_check, result_of. unfold bind at 1.
  destruct (ensure_connection (connection w) mgr) as [[[ok|e] mgr'] evs];
    cbn [fst snd]; [| split; [discriminate | intros [Hc _]; discriminate]].
  destruct ok; cbn [negb];
    [| cbn; split; [discriminate | intros [Hc _]; discriminate]].
  unfold get_system_status, get_network_latency, bind, call, logger, emit, ret.
  cbn [fst snd].
  destruct (system_status w) as [status|e]; cbn [fst snd].
  - destruct (Qlt_bool 90 (cpu status)) eqn:Ecpu; cbn [fst snd].
    { apply Qlt_bool_true in Ecpu. split; [discriminate |].
      intros (_ & st & l & [= <-] & _ & Hcpu & _). lra. }
    apply Qlt_bool_false in Ecpu.
    destruct (Qlt_bool 90 (memory_percent status)) eqn:Emem; cbn [fst snd].
    { apply Qlt_bool_true in Emem. split; [discriminate |].
      intros (_ & st & l & [= <-] & _ & _ & Hmem & _). lra. }
    apply Qlt_bool_false in Emem.
    destruct (network_latency w) as [latency|] eqn:Elat; cbn [xfloat_gt].
    + destruct (Qlt_bool 100 latency) eqn:El; cbn [fst snd].
      { apply Qlt_bool_true in El. split; [discriminate |].
        intros (_ & st & l & _ & [= <-] & _ & _ & Hl). lra. }
      apply Qlt_bool_false in El. split; [intros _ | reflexivity].
      split; [reflexivity |]. exists status, latency. repeat split; assumption.
    + cbn [fst snd]. split; [discriminate |].
      intros (_ & st & l & _ & Hfin & _). discriminate.
  - split; [discriminate |]. intros (_ & st & l & Hst & _). discriminate.
Qed.

(** X6: [health_check] returns True exactly when the connection is
    ensured, the CPU and memory samples are at most 90 and the measured
    latency is finite and at most 100 ms; the thresholds themselves pass. *)
Theorem health_check_true_iff
  (w : health_env) (self_name : string) (mgr : MT5ConnectionManager) :
  result_of (health_check w self_name mgr) = Returns true
  <->
  result_of (ensure_connection (connection w) mgr) = Returns true
  /\ exists status latency,
       system_status w = Returns status
       /\ network_latency w = Finite latency
       /\ (cpu status <= 90)%Q
       /\ (memory_percent status <= 90)%Q
       /\ (latency <= 100)%Q.
Proof. apply health_check_passes. Qed.

(** X7: when the connection cannot be ensured, [health_check] returns
    False without sampling the machine or the network: its only events
    are those of the connection attempt and the error log. *)
Theorem health_check_connection_first
  (w : health_env) (self_name : string) (mgr : MT5ConnectionManager) :
  result_of (ensure_connection (connection w) mgr) = Returns false ->
  health_check w self_name mgr
  = (Returns false,
     state_of (ensure_connection (connection w) mgr),
     trace_of (ensure_connection (connection w) mgr)
       ++ [Log ERROR (self_name ++ " strategy aborted - MT5 not connected")])
  /\ existsb is_resource_probe (trace_of (health_check w self_name mgr)) = false.
Proof.
  intros Hdown.
  assert (Hquiet : existsb is_resource_probe
                     (trace_of (ensure_connection (connection w) mgr)) = false).
  { unfold ensure_connection, trace_of, bind, get. cbn [fst snd].
    destruct (connected mgr); [reflexivity |].
    destruct (Qlt_bool (time_time (connection w) - last_connection_attempt mgr) 5) eqn:E.
    - rewrite (connect_throttled _ _ E). reflexivity.
    - unfold connect, bind, get, ret. cbn [fst snd]. rewrite E. run_py.
      destruct (mt5_initialize (connection w)) as [[|]|e];
        [destruct (mt5_login (connection w)) as [[|]|e] | |]; cbn; try reflexivity;
        destruct (mt5_last_error (connection w)) as [[]|e]; cbn; try reflexivity;
        destruct (mt5_shutdown (connection w)) as [[]|e]; cbn; reflexivity. }
  assert (Hrun : health_check w self_name mgr
                 = (Returns false,
                    state_of (ensure_connection (connection w) mgr),
                    trace_of (ensure_connection (connection w) mgr)
                      ++ [Log ERROR (self_name ++ " strategy aborted - MT5 not connected")])).
  { unfold health_check, result_of, state_of, trace_of in *. unfold bind at 1.
    destruct (ensure_connection (connection w) mgr) as [[r mgr'] evs].
    cbn [fst snd] in *. subst r. reflexivity. }
  split; [exact Hrun |].
  rewrite Hrun. cbn [trace_of snd].
  rewrite existsb_app, Hquiet. reflexivity.
Qed.

Lemma health_check_connection_first_witness :
  health_check
    {| connection := terminal_down 100;
       system_status := system_status cpu_95_health;
       network_latency := Finite 10 |} "Breakout" initialize
  = (Returns false,
     state_of (ensure_connection (terminal_down 100) initialize),
     trace_of (ensure_connection (terminal_down 100) initialize)
       ++ [Log ERROR ("Breakout" ++ " strategy aborted - MT5 not connected")])
  /\ existsb is_resource_probe
       (trace_of
          (health_check
             {| connection := terminal_down 100;
                system_status := system_status cpu_95_health;
                network_latency := Finite 10 |} "Breakout" initialize))
     = false.
Proof.
  apply (health_check_connection_first
           {| connection := terminal_down 100;
              system_status := system_status cpu_95_health;
              network_latency := Finite 10 |} "Breakout" initialize).
  reflexivity.
Defined.

(** X8: a latency probe whose connection raises, or takes more than a
    tenth of a second, closes the health gate: with the latency it
    measures, [health_check] does not return True, whatever else holds. *)
Theorem slow_probe_closes_gate
  (p : probe_env) (w : health_env) (self_name : string) (mgr : MT5ConnectionManager) :
  network_latency w = measure_network_latency p ->
  (is_returns (socket_create_connection p) = false
   \/ (1 # 10 < probe_end p - probe_start p)%Q) ->
  result_of (health_check w self_name mgr) <> Returns true.
Proof.
  intros Hlat Hslow Htrue.
  apply health_check_passes in Htrue
    as (_ & status & latency & _ & Hfin & _ & _ & Hle).
  rewrite Hlat in Hfin. unfold measure_network_latency in Hfin.
  destruct (socket_create_connection p) as [[]|e]; [| discriminate].
  injection Hfin as <-.
  destruct Hslow as [Hraise | Hlong]; [discriminate | lra].
Qed.

Lemma slow_probe_closes_gate_witness :
  result_of
    (health_check
       {| connection := terminal_up 1000;
          system_status := system_status (healthy 1000);
          network_latency := measure_network_latency slow_probe |}
       "Breakout" connected_at_100)
  <> Returns true.
Proof.
  apply (slow_probe_closes_gate slow_probe
           {| connection := terminal_up 1000;
              system_status := system_status (healthy 1000);
              network_latency := measure_network_latency slow_probe |}
           "Breakout" connected_at_100).
  - reflexivity.
  - right. reflexivity.
Defined.

(** ** Configuration updates compose *)

(** X10: two updates in a row amount to one update with the second
    dictionary laid over the first; an empty update and a repeated update
    change nothing further. *)
Theorem update_config_composes
  (first second : gmap string py_value) (self : TradingStrategy) :
  config (state_of (update_config second (state_of (update_config first self))))
  = config (state_of (update_config (dict_update second first) self))
  /\ config (state_of (update_config ∅ self)) = config self
  /\ config (state_of (update_config first (state_of (update_config first self))))
     = config (state_of (update_config first self)).
Proof.
  unfold update_config, state_of, bind, modify, get, logger, emit, dict_update.
  cbn [fst snd set_config config].
  split; [| split].
  - apply (assoc_L (∪)).
  - apply (left_id_L ∅ (∪)).
  - rewrite (assoc_L (∪)), (idemp_L (∪)). reflexivity.
Qed.

(** ** Decisions and the health gate *)

Lemma arbitrage_decision_requires_health
  (w : iter_env) (mgr : MT5ConnectionManager) (self : TriangleArbitrageStrategy.t) :
  decides (trace_of (iteration w (mgr, self))) = true ->
  result_of (health_check (health w) (name (TriangleArbitrageStrategy.base self)) mgr)
  = Returns true.
Proof.
  unfold iteration, try_except, trace_of, result_of.
  cbn [try_body TriangleArbitrageStrategy.strategy].
  unfold TriangleArbitrageStrategy.body, TriangleArbitrageStrategy.in_cooldown,
    bind, get. cbn [fst snd].
  destruct (as_number (TriangleArbitrageStrategy.cooldown self)) as [c|];
    [| cbn; discriminate].
  unfold ret. cbn [fst snd].
  destruct (Qlt_bool (now w - TriangleArbitrageStrategy.last_trade_time self) c);
    [cbn; discriminate |].
  unfold on_fst. cbn [fst snd].
  pose proof (health_check_not_decision (health w)
                (name (TriangleArbitrageStrategy.base self)) mgr) as Hquiet.
  unfold trace_of in Hquiet. apply not_decision_decides in Hquiet.
  destruct (health_check (health w) (name (TriangleArbitrageStrategy.base self)) mgr)
    as [[[[|]|e] mgr'] evs]; cbn [fst snd negb] in *.
  - intros _. reflexivity.
  - unfold time_sleep, emit. cbn [fst snd app].
    rewrite decides_app, Hquiet. discriminate.
  - unfold logger_exception, time_sleep, emit. cbn [fst snd app].
    rewrite decides_app, Hquiet. discriminate.
Qed.

Lemma smc_decision_requires_health
  (w : iter_env) (mgr : MT5ConnectionManager) (self : SMCStrategy.t) :
  decides (trace_of (iteration w (mgr, self))) = true ->
  result_of (health_check (health w) (name (SMCStrategy.base self)) mgr)
  = Returns true.
Proof.
  unfold iteration, try_except, trace_of, result_of.
  cbn [try_body SMCStrategy.strategy].
  unfold SMCStrategy.body. unfold bind at 1. unfold get at 1. cbn [fst snd].
  unfold bind at 1. unfold on_fst at 1. cbn [fst snd].
  pose proof (health_check_not_decision (health w)
                (name (SMCStrategy.base self)) mgr) as Hquiet.
  unfold trace_of in Hquiet. apply not_decision_decides in Hquiet.
  destruct (health_check (health w) (name (SMCStrategy.base self)) mgr)
    as [[[[|]|e] mgr'] evs]; cbn [fst snd negb] in *.
  - intros _. reflexivity.
  - unfold time_sleep, emit. cbn [fst snd app].
    rewrite decides_app, Hquiet. discriminate.
  - unfold logger_exception, time_sleep, emit, bind. cbn [fst snd app].
    rewrite decides_app, Hquiet. discriminate.
Qed.

Lemma breakout_decision_requires_health
  (w : iter_env) (mgr : MT5ConnectionManager) (self : BreakoutStrategy.t) :
  decides (trace_of (iteration w (mgr, self))) = true ->
  result_of (health_check (health w) (name (BreakoutStrategy.base self)) mgr)
  = Returns true.
Proof.
  unfold iteration, try_except, trace_of, result_of.
  cbn [try_body BreakoutStrategy.strategy].
  unfold BreakoutStrategy.body. unfold bind at 1. unfold get at 1. cbn [fst snd].
  unfold bind at 1. unfold on_fst at 1. cbn [fst snd].
  pose proof (health_check_not_decision (health w)
                (name (BreakoutStrategy.base self)) mgr) as Hquiet.
  unfold trace_of in Hquiet. apply not_decision_decides in Hquiet.
  destruct (health_check (health w) (name (BreakoutStrategy.base self)) mgr)
    as [[[[|]|e] mgr'] evs]; cbn [fst snd negb] in *.
  - intros _. reflexivity.
  - unfold time_sleep, emit. cbn [fst snd app].
    rewrite decides_app, Hquiet. discriminate.
  - unfold logger_exception, time_sleep, emit, bind. cbn [fst snd app].
    rewrite decides_app, Hquiet. discriminate.
Qed.

(** X11: in all three strategy loops, an iteration reaches the decision
    logic only if the health check of that same iteration returned True. *)
Theorem decision_requires_health
  (w : iter_env) (mgr : MT5ConnectionManager) (s : strategy) :
  decides (trace_of (iterate w (mgr, s))) = true ->
  result_of (health_check (health w) (name (base_of s)) mgr) = Returns true.
Proof.
  unfold iterate. cbn [fst snd]. destruct s as [a|a|a]; cbn [base_of].
  - pose proof (arbitrage_decision_requires_health w mgr a) as Hd.
    unfold trace_of in *.
    destruct (iteration w (mgr, a)) as [[r [m a']] evs]. exact Hd.
  - pose proof (smc_decision_requires_health w mgr a) as Hd.
    unfold trace_of in *.
    destruct (iteration w (mgr, a)) as [[r [m a']] evs]. exact Hd.
  - pose proof (breakout_decision_requires_health w mgr a) as Hd.
    unfold trace_of in *.
    destruct (iteration w (mgr, a)) as [[r [m a']] evs]. exact Hd.
Qed.

Lemma decision_requires_health_witness :
  decides (trace_of (iterate (calm 1000) (connected_at_100, SMC smc_fast))) = true
  /\ result_of (health_check (health (calm 1000)) (name (base_of (SMC smc_fast)))
                  connected_at_100)
     = Returns true.
Proof.
  split; [reflexivity |].
  apply (decision_requires_health (calm 1000) connected_at_100 (SMC smc_fast)).
  reflexivity.
Defined.

(** ** Stopping a loop *)

Section StopProperties.
Context {T : Type} `{StrategyLaws T}.

(** A loop that finds the flag cleared does nothing. *)
Lemma run_loop_inactive (ws : list iter_env) (st : MT5ConnectionManager * T) :
  is_active st = false -> run_loop ws st = (Exited, st, []).
Proof. intros Hidle. destruct ws; cbn [run_loop]; rewrite Hidle; reflexivity. Qed.

(** X12: [stop()] is cooperative. When it is called during an iteration,
    that iteration still runs to its end, and the loop exits at its next
    test of the flag: after [n] undisturbed iterations and a stop during
    the next one, exactly [n + 1] iterations have run and [execute] has
    returned, whatever else the environment offers. *)
Theorem stop_ends_loop
  (before : list iter_env) (w : iter_env) (after : list iter_env)
  (st : MT5ConnectionManager * T) :
  is_active st = true ->
  never_stopped before = true ->
  stop_requested w = true ->
  status_of_run (run_loop (before ++ w :: after) st) = Exited
  /\ length (trace_of_run (run_loop (before ++ w :: after) st)) = S (length before)
  /\ is_active (state_of_run (run_loop (before ++ w :: after) st)) = false.
Proof.
  revert st. induction before as [|w0 before IH]; intros st Hact Hnever Hstop.
  - cbn [app run_loop length]. rewrite Hact.
    pose proof (iteration_returns w st) as Hret.
    destruct (iteration w st) as [[r st1] evs]. cbn in Hret. subst r.
    assert (Hidle : is_active (observe_stop w st1) = false).
    { rewrite observe_stop_active, Hstop. reflexivity. }
    rewrite (run_loop_inactive after _ Hidle).
    cbn. repeat split. exact Hidle.
  - cbn [app run_loop length]. rewrite Hact.
    cbn [never_stopped forallb] in Hnever.
    apply andb_true_iff in Hnever as [Hw0 Hrest].
    pose proof (iteration_returns w0 st) as Hret.
    pose proof (iteration_keeps_active w0 st) as Hkeep.
    destruct (iteration w0 st) as [[r st1] evs]. cbn in Hret, Hkeep. subst r.
    assert (Hnext : is_active (observe_stop w0 st1) = true).
    { rewrite observe_stop_active, Hw0, Hkeep, Hact. reflexivity. }
    specialize (IH (observe_stop w0 st1) Hnext Hrest Hstop).
    destruct (run_loop (before ++ w :: after) (observe_stop w0 st1))
      as [[status st'] rest].
    cbn in IH |- *. destruct IH as (-> & -> & ->). repeat split.
Qed.
End StopProperties.

Lemma stop_ends_loop_witness :
  status_of_run
    (BreakoutStrategy.execute ([calm 1000; faulty 1005] ++ stopping 1010 :: [calm 1015])
       (connected_at_100, started (BreakoutStrategy.init ∅)))
  = Exited
  /\ length
       (trace_of_run
          (BreakoutStrategy.execute
             ([calm 1000; faulty 1005] ++ stopping 1010 :: [calm 1015])
             (connected_at_100, started (BreakoutStrategy.init ∅))))
     = 3%nat
  /\ is_active
       (state_of_run
          (BreakoutStrategy.execute
             ([calm 1000; faulty 1005] ++ stopping 1010 :: [calm 1015])
             (connected_at_100, started (BreakoutStrategy.init ∅))))
     = false.
Proof.
  apply (stop_ends_loop [calm 1000; faulty 1005] (stopping 1010) [calm 1015]
           (connected_at_100, started (BreakoutStrategy.init ∅))).
  - reflexivity.
  - reflexivity.
  - reflexivity.
Defined.

(** ** The arbitrage loop and its clock *)

(** X17: an iteration of the arbitrage loop moves [last_trade_time] only
    when the decision logic was invoked and returned, and then to the
    clock reading taken after it; a cooldown sleep, a closed health gate
    or a failure anywhere in the iteration leave it where it was. *)
Theorem arbitrage_last_trade_time_after
  (w : iter_env) (st : MT5ConnectionManager * TriangleArbitrageStrategy.t) :
  TriangleArbitrageStrategy.last_trade_time (snd (state_of (iteration w st)))
  = if completed {| seen := st; world := w; emitted := trace_of (iteration w st) |}
    then now_after w
    else TriangleArbitrageStrategy.last_trade_time (snd st).
Proof.
  destruct st as [mgr self].
  unfold completed. cbn [emitted world].
  unfold iteration, try_except, state_of, trace_of.
  cbn [try_body TriangleArbitrageStrategy.strategy].
  unfold TriangleArbitrageStrategy.body, TriangleArbitrageStrategy.in_cooldown,
    bind, get. cbn [fst snd].
  destruct (as_number (TriangleArbitrageStrategy.cooldown self)) as [c|];
    [| reflexivity].
  unfold ret. cbn [fst snd].
  destruct (Qlt_bool (now w - TriangleArbitrageStrategy.last_trade_time self) c);
    [reflexivity |].
  unfold on_fst. cbn [fst snd].
  pose proof (health_check_not_decision (health w)
                (name (TriangleArbitrageStrategy.base self)) mgr) as Hquiet.
  unfold trace_of in Hquiet. apply not_decision_decides in Hquiet.
  destruct (health_check (health w) (name (TriangleArbitrageStrategy.base self)) mgr)
    as [[[[|]|e] mgr'] evs]; cbn [fst snd negb] in *.
  - unfold call, on_snd, modify. cbn [fst snd].
    destruct (decision_logic w) as [[]|e]; cbn [fst snd is_returns app].
    + rewrite !decides_app. cbn. rewrite orb_true_r. reflexivity.
    + rewrite andb_false_r. reflexivity.
  - unfold time_sleep, emit. cbn [fst snd app].
    rewrite decides_app, Hquiet. reflexivity.
  - unfold logger_exception, time_sleep, emit. cbn [fst snd app].
    rewrite decides_app, Hquiet. reflexivity.
Qed.

Lemma arbitrage_text_cooldown_iteration
  (w : iter_env) (st : MT5ConnectionManager * TriangleArbitrageStrategy.t) :
  as_number (TriangleArbitrageStrategy.cooldown (snd st)) = None ->
  iteration w st
  = (Returns tt, st, [Log ERROR "Arbitrage strategy error"; Sleep 5]).
Proof.
  destruct st as [mgr self]. cbn [snd]. intros Hnone.
  unfold iteration, try_except.
  cbn [try_body TriangleArbitrageStrategy.strategy].
  unfold TriangleArbitrageStrategy.body, TriangleArbitrageStrategy.in_cooldown,
    bind, get. cbn [fst snd].
  rewrite Hnone. reflexivity.
Qed.

(** X18: a cooldown that is not a number (the text "10", say) disables
    the arbitrage strategy without stopping it: every iteration of every
    run fails on the comparison, logs the error and sleeps 5 seconds; the
    health gate is never consulted and the decision logic never reached. *)
Theorem arbitrage_text_cooldown_never_trades (ws : list iter_env) :
  forall st : MT5ConnectionManager * TriangleArbitrageStrategy.t,
    as_number (TriangleArbitrageStrategy.cooldown (snd st)) = None ->
    Forall (fun it => emitted it = [Log ERROR "Arbitrage strategy error"; Sleep 5])
           (trace_of_run (TriangleArbitrageStrategy.execute ws st)).
Proof.
  unfold TriangleArbitrageStrategy.execute.
  induction ws as [|w ws IH]; intros st Hnone; cbn [run_loop].
  - destruct (is_active st); constructor.
  - destruct (is_active st); [| constructor].
    rewrite (arbitrage_text_cooldown_iteration w st Hnone).
    assert (Hnext : as_number
                      (TriangleArbitrageStrategy.cooldown (snd (observe_stop w st)))
                    = None).
    { unfold observe_stop. destruct (stop_requested w); exact Hnone. }
    specialize (IH (observe_stop w st) Hnext).
    destruct (run_loop ws (observe_stop w st)) as [[status st'] rest].
    constructor; [reflexivity | exact IH].
Qed.

Lemma arbitrage_text_cooldown_never_trades_witness :
  Forall (fun it => emitted it = [Log ERROR "Arbitrage strategy error"; Sleep 5])
         (trace_of_run
            (TriangleArbitrageStrategy.execute [calm 1000; calm 1005; calm 1010]
               (connected_at_100, arbitrage_text_cooldown))).
Proof.
  apply (arbitrage_text_cooldown_never_trades [calm 1000; calm 1005; calm 1010]
           (connected_at_100, arbitrage_text_cooldown)).
  reflexivity.
Defined.

(** ** The market-data cache over time *)

(** One unforced call of [get_cached_data], case by case: it stays away
    from the terminal and leaves the object alone; or it fetches, which it
    does only with an empty cache or more than 30 seconds after the last
    refresh, and then either refreshes the cache and stamps the time, or
    fails and leaves the time (and a filled cache filled). *)
Lemma get_cached_data_step (w : iter_env) (self : SMCStrategy.t) :
  let r := SMCStrategy.get_cached_data w false self in
  (fetched (trace_of r) = false /\ refreshed (trace_of r) = false /\ state_of r = self)
  \/ (fetched (trace_of r) = true
      /\ (SMCStrategy.data_cache self = None
          \/ (30 < fetch_time w - SMCStrategy.last_update self)%Q)
      /\ ((refreshed (trace_of r) = true
           /\ SMCStrategy.last_update (state_of r) = fetch_time w
           /\ SMCStrategy.data_cache (state_of r) <> None)
          \/ (refreshed (trace_of r) = false
              /\ SMCStrategy.last_update (state_of r) = SMCStrategy.last_update self
              /\ (SMCStrategy.data_cache self <> None ->
                  SMCStrategy.data_cache (state_of r) <> None)))).
Proof.
  cbv zeta. unfold state_of, trace_of. run_cache. cbn [orb].
  destruct (is_None (SMCStrategy.data_cache self)
            || Qlt_bool 30 (fetch_time w - SMCStrategy.last_update self)) eqn:Edue.
  - right.
    assert (Hdue : SMCStrategy.data_cache self = None
                   \/ (30 < fetch_time w - SMCStrategy.last_update self)%Q).
    { apply orb_true_iff in Edue as [Hn | Hs].
      - left. destruct (SMCStrategy.data_cache self); [discriminate | reflexivity].
      - right. apply Qlt_bool_true, Hs. }
    destruct (mt5_copy_rates_from_pos w) as [rates|e]; cbn;
      [destruct (pd_DataFrame w) as [df|e]; cbn;
       [destruct (pd_to_datetime w) as [df'|e]; cbn |] |].
    + split; [reflexivity | split; [exact Hdue | left]].
      repeat split; discriminate.
    + split; [reflexivity | split; [exact Hdue | right]].
      repeat split; discriminate.
    + destruct (SMCStrategy.data_cache self) eqn:Ec; cbn; rewrite ?Ec; cbn;
        (split; [reflexivity | split; [exact Hdue | right]]);
        repeat split; try assumption; try discriminate; congruence.
    + destruct (SMCStrategy.data_cache self) eqn:Ec; cbn; rewrite ?Ec; cbn;
        (split; [reflexivity | split; [exact Hdue | right]]);
        repeat split; try assumption; try discriminate; congruence.
  - left. cbn.
    destruct (SMCStrategy.data_cache self) eqn:Ec; cbn; rewrite ?Ec; cbn;
      repeat split.
Qed.

(** With the cache filled and refreshed no earlier than [L], every later
    fetch comes more than 30 seconds after [L]. *)
Lemma get_cached_data_calls_bound (L : Q) (ws : list iter_env) :
  forall self : SMCStrategy.t,
    SMCStrategy.data_cache self <> None ->
    (L <= SMCStrategy.last_update self)%Q ->
    Forall (fun c => fetched (snd c) = true -> (30 < fst c - L)%Q)
           (get_cached_data_calls ws self).
Proof.
  induction ws as [|w ws IH]; intros self Hfilled HL; cbn [get_cached_data_calls];
    [constructor |].
  pose proof (get_cached_data_step w self) as Hstep. cbv zeta in Hstep.
  unfold state_of, trace_of in Hstep.
  destruct (SMCStrategy.get_cached_data w false self) as [[r self'] evs].
  cbn [fst snd] in Hstep.
  destruct Hstep as [(Hno & _ & ->) | (Hyes & Hdue & Hafter)].
  - constructor; [cbn [fst snd]; congruence | apply IH; assumption].
  - assert (Hlate : (30 < fetch_time w - SMCStrategy.last_update self)%Q).
    { destruct Hdue as [Hnone | Hlate]; [contradiction | exact Hlate]. }
    constructor; [cbn [fst snd]; intros _; lra |].
    destruct Hafter as [(_ & Hstamp & Hsome) | (_ & Hsame & Hsome)].
    + apply IH; [exact Hsome | rewrite Hstamp; lra].
    + apply IH; [apply Hsome, Hfilled | rewrite Hsame; exact HL].
Qed.

(** X16: over any sequence of unforced [get_cached_data] calls, once a
    call has refreshed the cache no later call goes to the terminal until
    more than 30 seconds have passed since that refresh: the cache bounds
    the successful fetches to one per 30-second window. *)
Theorem cache_refresh_window (ws : list iter_env) :
  forall self : SMCStrategy.t,
    ForallOrdPairs cache_window (get_cached_data_calls ws self).
Proof.
  induction ws as [|w ws IH]; intros self; cbn [get_cached_data_calls];
    [constructor |].
  pose proof (get_cached_data_step w self) as Hstep. cbv zeta in Hstep.
  unfold state_of, trace_of in Hstep.
  destruct (SMCStrategy.get_cached_data w false self) as [[r self'] evs].
  cbn [fst snd] in Hstep.
  constructor; [| apply IH].
  unfold cache_window. cbn [fst snd].
  destruct Hstep as [(_ & Hnot & _) | (_ & _ & [(_ & Hstamp & Hsome) | (Hnot & _)])].
  - rewrite List.Forall_forall. intros later _ Href. congruence.
  - pose proof (get_cached_data_calls_bound (fetch_time w) ws self' Hsome) as Hbound.
    rewrite Hstamp in Hbound. specialize (Hbound (Qle_refl _)).
    rewrite List.Forall_forall in *. intros later Hin _ Hfetch.
    apply (Hbound later Hin Hfetch).
  - rewrite List.Forall_forall. intros later _ Href. congruence.
Qed.

(** X14: once the cache holds a frame, [get_cached_data] never raises: it
    returns a frame whatever the terminal does. When the fetch fails, it
    returns a copy of the old frame, stale as it may be, and leaves
    [last_update] alone, so the next call tries again. *)
Theorem get_cached_data_serves_stale
  (w : iter_env) (force_update : bool) (self : SMCStrategy.t) (df : DataFrame) :
  SMCStrategy.data_cache self = Some df ->
  (exists df', result_of (SMCStrategy.get_cached_data w force_update self)
               = Returns (Some df'))
  /\ (fetch_fails w = true ->
      result_of (SMCStrategy.get_cached_data w force_update self)
      = Returns (Some (copy df))
      /\ SMCStrategy.data_cache
           (state_of (SMCStrategy.get_cached_data w force_update self)) = Some df
      /\ SMCStrategy.last_update
           (state_of (SMCStrategy.get_cached_data w force_update self))
         = SMCStrategy.last_update self).
Proof.
  intros Hcache. unfold result_of, state_of, fetch_fails. run_cache.
  destruct (force_update || is_None (SMCStrategy.data_cache self)
            || Qlt_bool 30 (fetch_time w - SMCStrategy.last_update self)).
  - destruct (mt5_copy_rates_from_pos w) as [rates|e]; cbn;
      [destruct (pd_DataFrame w) as [df0|e]; cbn;
       [destruct (pd_to_datetime w) as [df1|e]; cbn |] |];
      rewrite ?Hcache; cbn;
      (split; [eexists; reflexivity |]);
      try (intros Hf; discriminate Hf);
      intros _; repeat split; assumption.
  - cbn. rewrite Hcache. cbn.
    split; [eexists; reflexivity |]. intros _. repeat split. exact Hcache.
Qed.

Lemma get_cached_data_serves_stale_witness :
  (exists df', result_of (SMCStrategy.get_cached_data (no_rates 1100) false smc_cached)
               = Returns (Some df'))
  /\ (fetch_fails (no_rates 1100) = true ->
      result_of (SMCStrategy.get_cached_data (no_rates 1100) false smc_cached)
      = Returns (Some (copy one_bar))
      /\ SMCStrategy.data_cache
           (state_of (SMCStrategy.get_cached_data (no_rates 1100) false smc_cached))
         = Some one_bar
      /\ SMCStrategy.last_update
           (state_of (SMCStrategy.get_cached_data (no_rates 1100) false smc_cached))
         = SMCStrategy.last_update smc_cached).
Proof.
  apply (get_cached_data_serves_stale (no_rates 1100) false smc_cached one_bar).
  reflexivity.
Defined.

(** X15: [self.data_cache] is assigned before the time column is
    converted. When the frame is built but the conversion raises, the
    cache is left holding the unconverted frame, [last_update] is not
    advanced, the failure is only logged, and the unconverted frame is
    what the caller gets. *)
Theorem get_cached_data_keeps_unconverted_frame
  (w : iter_env) (force_update : bool) (self : SMCStrategy.t)
  (rates : py_value) (df : DataFrame) (e : exn) :
  force_update
  || is_None (SMCStrategy.data_cache self)
  || Qlt_bool 30 (fetch_time w - SMCStrategy.last_update self) = true ->
  mt5_copy_rates_from_pos w = Returns rates ->
  pd_DataFrame w = Returns df ->
  pd_to_datetime w = Raises e ->
  SMCStrategy.get_cached_data w force_update self
  = (Returns (Some (copy df)),
     SMCStrategy.set_data_cache (Some df) self,
     [SMCStrategy.copy_rates_event self; Log ERROR "Failed to update market data"]).
Proof.
  intros Hdue Hrates Hframe Htime. run_cache.
  rewrite Hdue, Hrates. cbn. rewrite Hframe. cbn. rewrite Htime. cbn. reflexivity.
Qed.

Lemma get_cached_data_keeps_unconverted_frame_witness :
  SMCStrategy.get_cached_data (no_time_column 1100) false smc_cached
  = (Returns (Some (copy raw_bar)),
     SMCStrategy.set_data_cache (Some raw_bar) smc_cached,
     [SMCStrategy.copy_rates_event smc_cached;
      Log ERROR "Failed to update market data"]).
Proof.
  apply (get_cached_data_keeps_unconverted_frame (no_time_column 1100) false smc_cached
           PyNone raw_bar (Exception "KeyError")).
  - reflexivity.
  - reflexivity.
  - reflexivity.
  - reflexivity.
Defined.

(** ** Authorization *)

(** The decimal text of an integer determines it. *)
Lemma str_inj (a b : Z) : str a = str b -> a = b.
Proof.
  unfold str. intros Heq.
  assert (Hparse : forall n,
             DecimalString.NilZero.int_of_string
               (DecimalString.NilZero.string_of_int (Z.to_int n))
             = Some (Z.to_int n)).
  { intros n. apply DecimalString.NilZero.isi; destruct n as [|p|p]; cbn;
      try discriminate; intros [= Hnil];
      exact (DecimalPos.Unsigned.to_uint_nonnil p Hnil). }
  pose proof (Hparse a) as Ha. rewrite Heq, Hparse in Ha.
  injection Ha as Ha. symmetry. apply DecimalZ.to_int_inj, Ha.
Qed.

Lemma is_authorized_In (users : list py_value) (user_id : Z) :
  is_authorized users user_id = true <-> In (PyStr (str user_id)) users.
Proof.
  unfold is_authorized. rewrite existsb_exists. split.
  - intros (v & Hin & Heq). destruct v; try discriminate.
    apply String.eqb_eq in Heq. subst. exact Hin.
  - intros Hin. exists (PyStr (str user_id)). split; [exact Hin |].
    apply String.eqb_refl.
Qed.

(** X19: a user is authorized exactly when the decimal text of the id is
    an entry of the list; listing the text of one id authorizes that id
    and no other. *)
Theorem is_authorized_exact (users : list py_value) (a user_id : Z) :
  (is_authorized users user_id = true <-> In (PyStr (str user_id)) users)
  /\ is_authorized [PyStr (str a)] user_id = Z.eqb a user_id.
Proof.
  split; [apply is_authorized_In |].
  destruct (Z.eqb_spec a user_id) as [-> | Hne].
  - apply is_authorized_In. left. reflexivity.
  - destruct (is_authorized [PyStr (str a)] user_id) eqn:E; [| reflexivity].
    apply is_authorized_In in E. destruct E as [E | []].
    injection E as E. apply str_inj in E. contradiction.
Qed.

(** X20: entries that are not strings authorize nobody. A list of ids
    written as JSON numbers, [[4242]], locks every user out, the user 4242
    included. *)
Theorem is_authorized_numbers_lock_out (users : list py_value) (user_id : Z) :
  forallb (fun v => negb (is_PyStr v)) users = true ->
  is_authorized users user_id = false.
Proof.
  intros Hnum.
  destruct (is_authorized users user_id) eqn:E; [| reflexivity].
  apply is_authorized_In in E.
  rewrite forallb_forall in Hnum. specialize (Hnum _ E). discriminate.
Qed.

Lemma is_authorized_numbers_lock_out_witness :
  is_authorized [PyInt 4242] 4242 = false.
Proof.
  apply (is_authorized_numbers_lock_out [PyInt 4242] 4242). reflexivity.
Defined.

(** ** The handlers *)

(** X21: for a user who is not authorized, the wrapper that
    [secure_function] returns never calls the wrapped function, whatever
    that function is: it sends the refusal, logs a warning and returns. *)
Theorem secure_function_blocks
  (users : list py_value) (func : py_function) (user_id : Z)
  (context : py_object) (rest : list py_object) (chat : Chat) :
  is_authorized users user_id = false ->
  secure_function users func (UpdateObject user_id :: context :: rest) chat
  = (Returns tt, (fst chat, snd chat ++ [UnauthorizedAccess]),
     [Log WARNING "Unauthorized access attempt"]).
Proof.
  intros Hno. unfold secure_function, bind, answer. cbn [effective_user_id_of fst snd].
  rewrite Hno. reflexivity.
Qed.

Lemma secure_function_blocks_witness :
  secure_function only_4242 start_command_body
    (UpdateObject 7 :: ContextObject :: []) (initialize, [])
  = (Returns tt, (initialize, [] ++ [UnauthorizedAccess]),
     [Log WARNING "Unauthorized access attempt"]).
Proof.
  apply (secure_function_blocks only_4242 start_command_body 7 ContextObject []
           (initialize, [])).
  reflexivity.
Defined.

(** X26: the refusal is sent before the warning is logged. For a user who
    is not authorized and an update whose [reply_text] raises [e], the
    wrapper that [secure_function] returns raises [e]: the wrapped function
    is not called, and the unauthorized attempt is not logged. *)
Theorem secure_function_refusal_raises_unlogged
  (users : list py_value) (func : py_function) (user_id : Z) (e : exn)
  (context : py_object) (rest : list py_object) (chat : Chat) :
  is_authorized users user_id = false ->
  secure_function users func (UnanswerableUpdate user_id e :: context :: rest) chat
  = (Raises e, chat, []).
Proof.
  intros Hno. unfold secure_function, bind, answer. cbn [effective_user_id_of fst snd].
  rewrite Hno. reflexivity.
Qed.

Lemma secure_function_refusal_raises_unlogged_witness :
  secure_function only_4242 start_command_body
    (UnanswerableUpdate 7 (Exception "NetworkError") :: ContextObject :: [])
    (initialize, [])
  = (Raises (Exception "NetworkError"), (initialize, []), []).
Proof.
  apply (secure_function_refusal_raises_unlogged only_4242 start_command_body 7
           (Exception "NetworkError") ContextObject [] (initialize, [])).
  reflexivity.
Defined.

(** X22: a handler is wrapped twice, by the [@secure_function] decorator
    in the class and by [self.secure(...)] at registration. For an
    authorized user the outer wrapper calls the bound method, whose inner
    wrapper receives the bot itself as its [update] and fails on
    [update.effective_user]: the handler raises [AttributeError], sends
    nothing and never reaches its body, whatever that body is. *)
Theorem registered_handler_raises
  (users : list py_value) (body : py_function) (user_id : Z) (chat : Chat) :
  is_authorized users user_id = true ->
  registered users (secure_function users body) [UpdateObject user_id; ContextObject] chat
  = (Raises (Exception "AttributeError"), chat, []).
Proof.
  intros Hyes.
  unfold registered, secure, bound_method, secure_function at 1, bind, answer.
  cbn [effective_user_id_of fst snd].
  rewrite Hyes. cbn [negb].
  unfold secure_function, bind, answer. cbn [effective_user_id_of fst snd].
  destruct chat. reflexivity.
Qed.

Lemma registered_handler_raises_witness :
  registered only_4242 (account_balance only_4242 refused_then_up)
    [UpdateObject 4242; ContextObject] (initialize, [])
  = (Raises (Exception "AttributeError"), (initialize, []), []).
Proof.
  apply (registered_handler_raises only_4242 (account_balance_body refused_then_up)
           4242 (initialize, [])).
  reflexivity.
Defined.

(** X23: [TelegramBot.start] never starts polling. The third registration
    looks up [self.show_strategy_menu], which the class does not define:
    [start] raises [AttributeError] with two handlers registered and
    polling left as it was. *)
Theorem TelegramBot_start_raises (u : Updater) :
  TelegramBot_start u
  = (Raises (Exception "AttributeError"),
     {| handlers := handlers u ++ ["start_command"; "account_balance"];
        polling := polling u |},
     []).
Proof.
  unfold TelegramBot_start, add_handler, bind, modify, raise.
  cbn. rewrite <- app_assoc. reflexivity.
Qed.

(** ** The balance handler *)

Lemma ensure_connection_returns (w : connect_env) (mgr : MT5ConnectionManager) :
  exists b, result_of (ensure_connection w mgr) = Returns b.
Proof.
  unfold ensure_connection, result_of, bind, get. cbn [fst snd].
  destruct (connected mgr); [eexists; reflexivity |].
  destruct (connect_never_raises w mgr) as [b Hb]. unfold result_of in Hb.
  destruct (connect w mgr) as [[r m] evs]. cbn [fst snd] in *. subst r.
  eexists. reflexivity.
Qed.

Lemma reconnect_returns (w : connect_env) (mgr : MT5ConnectionManager) :
  exists b, result_of (reconnect w mgr) = Returns b.
Proof.
  unfold reconnect, result_of, bind, modify. cbn [fst snd].
  destruct (connect_never_raises w (set_connected false mgr)) as [b Hb].
  unfold result_of in Hb.
  destruct (connect w (set_connected false mgr)) as [[r m] evs].
  cbn [fst snd] in *. subst r. eexists. reflexivity.
Qed.

(** X24: the reconnection of [account_balance] cannot succeed after a
    fresh failure. When [ensure_connection] has just made an attempt that
    failed, the [reconnect] that follows the 2-second sleep falls inside
    the 5-second throttle: it makes no attempt, and the user is told that
    the reconnection failed, whatever the terminal would answer by then. *)
Theorem account_balance_reconnect_throttled
  (w : balance_env) (user_id : Z) (mgr : MT5ConnectionManager) (sent : list reply) :
  connected mgr = false ->
  Qlt_bool (time_time (at_ensure w) - last_connection_attempt mgr) 5 = false ->
  terminal_accepts (at_ensure w) = false ->
  (time_time (at_reconnect w) - time_time (at_ensure w) < 5)%Q ->
  account_balance_body w [BotObject; UpdateObject user_id; ContextObject] (mgr, sent)
  = (Returns tt,
     (state_of (connect (at_ensure w) mgr),
      sent ++ [ConnectionUnavailable; ReconnectFailed]),
     trace_of (connect (at_ensure w) mgr) ++ [Sleep 2]).
Proof.
  intros Hdown Hfirst Hrefused Hsoon.
  destruct (connect_result _ _ Hfirst) as [Hres Hflag].
  destruct (connect_not_throttled _ _ Hfirst) as (b & mgr1 & evs & Hrun & _ & Hlast).
  rewrite Hrun in Hres, Hflag |- *.
  cbn [result_of state_of trace_of fst snd] in *.
  rewrite Hrefused in Hres. injection Hres as ->.
  assert (Hthr : Qlt_bool (time_time (at_reconnect w)
                           - last_connection_attempt (set_connected false mgr1)) 5
                 = true).
  { cbn [last_connection_attempt set_connected]. rewrite Hlast.
    apply Qlt_bool_true. exact Hsoon. }
  unfold account_balance_body.
  unfold bind at 1. unfold on_fst at 1. cbn [fst snd].
  unfold ensure_connection, bind at 1, get. cbn [fst snd]. rewrite Hdown.
  rewrite Hrun. cbn [fst snd negb].
  unfold reply_text, time_sleep, emit, on_snd, on_fst, reconnect, bind, ret, modify.
  cbn [fst snd].
  rewrite (connect_throttled _ _ Hthr). cbn [fst snd negb connected set_connected].
  assert (Hsame : set_connected false mgr1 = mgr1).
  { destruct mgr1 as [c l i]. cbn in Hflag. rewrite Hrefused in Hflag.
    subst c. reflexivity. }
  rewrite Hsame. cbn [app]. rewrite ?app_nil_r, <- ?app_assoc. reflexivity.
Qed.

Lemma account_balance_reconnect_throttled_witness :
  account_balance_body refused_then_up
    [BotObject; UpdateObject 4242; ContextObject] (initialize, [])
  = (Returns tt,
     (state_of (connect (at_ensure refused_then_up) initialize),
      [] ++ [ConnectionUnavailable; ReconnectFailed]),
     trace_of (connect (at_ensure refused_then_up) initialize) ++ [Sleep 2]).
Proof.
  apply (account_balance_reconnect_throttled refused_then_up 4242 initialize []).
  - reflexivity.
  - reflexivity.
  - reflexivity.
  - reflexivity.
Defined.

Ltac run_handler :=
  unfold reply_text, balance_message, time_sleep, logger_exception, emit,
    try_except, on_snd, on_fst, answer, bind, ret, modify;
  cbn [fst snd negb].

Lemma account_balance_body_run
  (w : balance_env) (user_id : Z) (mgr : MT5ConnectionManager) (sent : list reply) :
  exists mgr' messages evs,
    account_balance_body w [BotObject; UpdateObject user_id; ContextObject] (mgr, sent)
    = (Returns tt, (mgr', sent ++ messages), evs)
    /\ messages <> [].
Proof.
  unfold account_balance_body.
  unfold bind at 1. unfold on_fst at 1. cbn [fst snd].
  destruct (ensure_connection_returns (at_ensure w) mgr) as [ok Hok].
  unfold result_of in Hok.
  destruct (ensure_connection (at_ensure w) mgr) as [[r mgr1] evs].
  cbn [fst snd] in *. subst r.
  destruct ok; cbn [negb].
  - run_handler.
    destruct (mt5_account_info w) as [[info|]|e]; cbn [fst snd];
      do 3 eexists; (split; [reflexivity | discriminate]).
  - unfold bind at 1. unfold bind at 1.
    unfold reply_text at 1, on_snd at 1, modify at 1. cbn [fst snd].
    unfold bind at 1. unfold time_sleep at 1, emit at 1. cbn [fst snd].
    unfold bind at 1. unfold on_fst at 1. cbn [fst snd].
    destruct (reconnect_returns (at_reconnect w) mgr1) as [again Hagain].
    unfold result_of in Hagain.
    destruct (reconnect (at_reconnect w) mgr1) as [[r mgr2] evs2].
    cbn [fst snd] in *. subst r.
    destruct again; cbn [negb]; run_handler.
    + destruct (mt5_account_info w) as [[info|]|e]; cbn [fst snd];
        rewrite <- app_assoc; do 3 eexists; (split; [reflexivity | discriminate]).
    + rewrite <- app_assoc. do 3 eexists. split; [reflexivity | discriminate].
Qed.

(** With an update whose replies raise, the first reply of
    [account_balance] raises: the one before the sleep when the connection
    is down, the last statement otherwise. *)
Lemma account_balance_body_reply_raises
  (w : balance_env) (user_id : Z) (e : exn) (mgr : MT5ConnectionManager)
  (sent : list reply) :
  exists mgr' evs,
    account_balance_body w [BotObject; UnanswerableUpdate user_id e; ContextObject]
      (mgr, sent)
    = (Raises e, (mgr', sent), evs).
Proof.
  unfold account_balance_body.
  unfold bind at 1. unfold on_fst at 1. cbn [fst snd].
  destruct (ensure_connection_returns (at_ensure w) mgr) as [ok Hok].
  unfold result_of in Hok.
  destruct (ensure_connection (at_ensure w) mgr) as [[r mgr1] evs].
  cbn [fst snd] in *. subst r.
  destruct ok; cbn [negb].
  - unfold reply_text, raise. run_handler.
    destruct (mt5_account_info w) as [[info|]|e']; cbn [fst snd];
      do 2 eexists; reflexivity.
  - unfold reply_text, raise, bind. cbn [fst snd].
    do 2 eexists. reflexivity.
Qed.

(** X25: [account_balance] guards [mt5.account_info()] and not its
    replies. With an update that can be answered, the body never raises,
    whatever the connection and [mt5.account_info()] do (an exception of
    the latter is caught and logged), and at least one message is added to
    the chat. With an update whose [reply_text] raises [e], the body raises
    [e] on every path and the chat is left as it was: the replies,
    the last one included, are outside the [try]. *)
Theorem account_balance_answers_unless_reply_raises
  (w : balance_env) (user_id : Z) (chat : Chat) :
  (let r := account_balance_body w [BotObject; UpdateObject user_id; ContextObject] chat in
   result_of r = Returns tt
   /\ exists messages,
        messages <> [] /\ snd (state_of r) = snd chat ++ messages)
  /\ (forall e : exn,
        let r := account_balance_body w
                   [BotObject; UnanswerableUpdate user_id e; ContextObject] chat in
        result_of r = Raises e /\ snd (state_of r) = snd chat).
Proof.
  destruct chat as [mgr sent]. cbv zeta. split.
  - destruct (account_balance_body_run w user_id mgr sent)
      as (mgr' & messages & evs & -> & Hsome).
    split; [reflexivity |]. exists messages. split; [exact Hsome | reflexivity].
  - intros e.
    destruct (account_balance_body_reply_raises w user_id e mgr sent)
      as (mgr' & evs & ->).
    split; reflexivity.
Qed.

(** ** Configuration updates and the arbitrage loop *)

(** X13: a configuration update never reaches a TriangleArbitrageStrategy
    that exists already. Its loop reads the cooldown from the attribute
    bound in [__init__] and reads nothing from [self.config], so after
    [update_config], whatever the new fields, every iteration does exactly
    what it would have done, and leaves the same times and manager. *)
Theorem arbitrage_ignores_update_config
  (new_config : gmap string py_value) (w : iter_env)
  (mgr : MT5ConnectionManager) (self : TriangleArbitrageStrategy.t) :
  let updated := update_config_on new_config self in
  TriangleArbitrageStrategy.cooldown updated = TriangleArbitrageStrategy.cooldown self
  /\ result_of (iteration w (mgr, updated)) = result_of (iteration w (mgr, self))
  /\ trace_of (iteration w (mgr, updated)) = trace_of (iteration w (mgr, self))
  /\ fst (state_of (iteration w (mgr, updated)))
     = fst (state_of (iteration w (mgr, self)))
  /\ TriangleArbitrageStrategy.last_trade_time (snd (state_of (iteration w (mgr, updated))))
     = TriangleArbitrageStrategy.last_trade_time (snd (state_of (iteration w (mgr, self)))).
Proof.
  cbv zeta. split; [reflexivity |].
  unfold update_config_on, result_of, state_of, trace_of.
  cbn [strategy_base strategy_with_base TriangleArbitrageStrategy.strategy].
  unfold update_config, bind, modify, get, logger, emit. cbn [fst snd].
  unfold iteration, try_except.
  cbn [try_body TriangleArbitrageStrategy.strategy].
  unfold TriangleArbitrageStrategy.body, TriangleArbitrageStrategy.in_cooldown,
    bind, get. cbn [fst snd].
  cbn [TriangleArbitrageStrategy.with_base TriangleArbitrageStrategy.cooldown
       TriangleArbitrageStrategy.last_trade_time TriangleArbitrageStrategy.base
       set_config name].
  destruct (as_number (TriangleArbitrageStrategy.cooldown self)) as [c|];
    [| repeat split].
  unfold ret. cbn [fst snd].
  destruct (Qlt_bool (now w - TriangleArbitrageStrategy.last_trade_time self) c);
    [repeat split |].
  unfold on_fst. cbn [fst snd].
  destruct (health_check (health w) (name (TriangleArbitrageStrategy.base self)) mgr)
    as [[[[|]|e] mgr'] evs]; cbn [fst snd negb].
  - unfold call, on_snd, modify. cbn [fst snd].
    destruct (decision_logic w) as [[]|e]; cbn [fst snd]; repeat split.
  - repeat split.
  - repeat split.
Qed.
